(** * nsGridRowGroupLayout: sizing and flattening of grid row groups

    A shallow embedding of
    [layout/xul/base/src/grid/nsGridRowGroupLayout.cpp] and the
    properties its specification states about it.

    Conventions of the embedding:
    - [PRInt32] and [nscoord] values are integers of [Z]; every
      arithmetic operation of the source on them is followed by
      [wrap32], the two's-complement wrap-around of a 32-bit signed
      integer; the pointer into the row buffer is an index of [Z] and
      does not wrap;
    - a pointer to a box is [option Box] ([None] is [nsnull]); a box is
      identified by its address [mAddr];
    - dereferencing [nsnull] and writing outside the caller's row
      buffer do not return: they are the two [Fault]s of [Result];
    - the [nsBoxLayoutState] argument is only handed on to the
      collaborators and is left out. *)

From Stdlib Require Import ZArith Lia Bool.
From stdpp Require Import base list gmap.

Local Open Scope Z_scope.

(** ** 32-bit signed integers *)

Definition PR_INT32_MIN : Z := -2147483648.
Definition PR_INT32_MAX : Z := 2147483647.

Definition wrap32 (z : Z) : Z := (z + 2147483648) mod 4294967296 - 2147483648.

Definition int32 (z : Z) : Prop := PR_INT32_MIN <= z <= PR_INT32_MAX.

(** [a + b], [a - b] on [PRInt32]. *)
Definition add32 (a b : Z) : Z := wrap32 (a + b).
Definition sub32 (a b : Z) : Z := wrap32 (a - b).

(** ** Results of code that may crash *)

Inductive Fault : Type :=
| NullDeref       (* a method call through nsnull *)
| BufferOverrun.  (* a row written outside the caller's buffer *)

Inductive Result (A : Type) : Type :=
| Ok (a : A)
| Crash (f : Fault).
Arguments Ok {A} a.
Arguments Crash {A} f.

#[global] Instance Result_bind : MBind Result := fun A B k m =>
  match m with
  | Ok a => k a
  | Crash f => Crash f
  end.

Inductive nsresult : Type :=
| NS_OK
| NS_ERROR (code : Z).

(** ** Data model *)

Definition nscoord : Type := Z.

Record nsSize : Type := mkSize { width : nscoord; height : nscoord }.

(** The layout manager attached to a box, as [do_QueryInterface] to
    [nsIGridPart] sees it. *)
Inductive nsIBoxLayout : Type :=
| PlainLayout                 (* an nsIBoxLayout that is no nsIGridPart *)
| GridRowGroupLayout          (* nsGridRowGroupLayout, the class of this file *)
| OtherGridPart (impl : nat). (* another nsIGridPart implementation, by vtable *)

(** A box of the frame tree.  [mScrolled] is [None] for a box that is
    no [nsIScrollableFrame]; for a scrollable frame it holds what
    [GetScrolledFrame] followed by the query for [nsIBox] yields, which
    may be [nsnull]. *)
#[warnings="-register-all"]
Inductive Box : Type :=
| mkBox (mAddr : nat)
        (mScrolled : option (option Box))
        (mLayout : option nsIBoxLayout)
        (mKids : list Box).

Definition mAddr (b : Box) : nat := match b with mkBox a _ _ _ => a end.
Definition mScrolled (b : Box) : option (option Box) :=
  match b with mkBox _ s _ _ => s end.
Definition GetLayoutManager (b : Box) : option nsIBoxLayout :=
  match b with mkBox _ _ l _ => l end.
(** [GetChildBox] and the chain of [GetNextBox]: the direct children in
    document order. *)
Definition GetChildBoxes (b : Box) : list Box :=
  match b with mkBox _ _ _ k => k end.

(** A row descriptor.  Modelled from the spec: [nsGridRow::Init] is
    defined in nsGridRow.cpp, outside this file; a descriptor identifies
    the box of the row and tells whether the row was generated for a
    plain box (a bogus row). *)
Record nsGridRow : Type := mkRow { mBox : option nat; mIsBogus : bool }.

Definition Init (aBox : Box) (aIsBogus : bool) : nsGridRow :=
  {| mBox := Some (mAddr aBox); mIsBogus := aIsBogus |}.

(** The shared grid, through the accessors this file calls.  The
    boolean is the [aIsHorizontal] argument of each. *)
Record nsGrid : Type := mkGrid {
  GetColumnCount : bool -> Z;
  GetExtraColumnCount : bool -> Z;
  GetPrefRowHeight : Z -> bool -> nscoord;
  GetMaxRowHeight : Z -> bool -> nscoord;
  GetMinRowHeight : Z -> bool -> nscoord
}.

(** [grid->RowAddedOrRemoved(aState, index, isRow)], recorded in the
    order the calls are made. *)
Inductive GridCall : Type :=
| RowAddedOrRemoved (grid : nsGrid) (index : Z) (isRow : bool).

(** The base class [nsGridRowLayout], whose methods this file calls:
    the grid lookup, the orientation of a box and the three size
    queries of a single row.  A size query gets the size the caller
    passes by reference and returns the status and the size it leaves
    there. *)
Record nsGridRowLayout : Type := mkRowLayout {
  GetGrid : Box -> option (nsGrid * Z);
  IsHorizontal : Box -> bool;
  nsGridRowLayout_GetPrefSize : Box -> nsSize -> nsresult * nsSize;
  nsGridRowLayout_GetMaxSize : Box -> nsSize -> nsresult * nsSize;
  nsGridRowLayout_GetMinSize : Box -> nsSize -> nsresult * nsSize
}.

(** Modelled from the spec: the macro [GET_WIDTH] comes from a header
    outside this file; it selects the component of a size that lies on
    the axis of the row group, the width of a horizontal one and the
    height of a vertical one.  [SET_WIDTH] is the assignment through
    the reference the macro yields. *)
Definition GET_WIDTH (aSize : nsSize) (aIsRow : bool) : nscoord :=
  if aIsRow then width aSize else height aSize.

Definition SET_WIDTH (aSize : nsSize) (aIsRow : bool) (v : nscoord) : nsSize :=
  if aIsRow then {| width := v; height := height aSize |}
  else {| width := width aSize; height := v |}.

(** The other axis, for the frame conditions. *)
Definition GET_HEIGHT (aSize : nsSize) (aIsRow : bool) : nscoord :=
  if aIsRow then height aSize else width aSize.

(** ** Size aggregation *)

Section Sizing.

(** The constant [NS_INTRINSICSIZE] is defined in a header outside
    this file; the code only compares with it and assigns it. *)
Variable NS_INTRINSICSIZE : nscoord.

Variable super : nsGridRowLayout.

Definition ChildAddedOrRemoved (aBox : Box) (calls : list GridCall)
  : nsresult * list GridCall :=
  let isRow := IsHorizontal super aBox in
  match GetGrid super aBox with
  | Some (grid, index) => (NS_OK, calls ++ [RowAddedOrRemoved grid index isRow])
  | None => (NS_OK, calls)
  end.

Definition AddWidth (aSize : nsSize) (aSize2 : nscoord) (aIsRow : bool) : nsSize :=
  let size := GET_WIDTH aSize aIsRow in
  if (size =? NS_INTRINSICSIZE) || (aSize2 =? NS_INTRINSICSIZE)
  then SET_WIDTH aSize aIsRow NS_INTRINSICSIZE
  else SET_WIDTH aSize aIsRow (add32 size aSize2).

(** [for (PRInt32 i=0; i < extraColumns; i++)] around a body that
    reads one size of the grid at [i+start] on the other axis and
    adds it. *)
Definition addExtraColumns (rowHeight : Z -> bool -> nscoord)
    (isRow : bool) (extraColumns start : Z) (aSize : nsSize) : nsSize :=
  foldl (fun aSize i =>
           let size := rowHeight (add32 i start) (negb isRow) in
           AddWidth aSize size isRow)
        aSize (seqZ 0 extraColumns).

Definition GetPrefSize (aBox : Box) (aSize : nsSize) : nsresult * nsSize :=
  let '(rv, aSize) := nsGridRowLayout_GetPrefSize super aBox aSize in
  match GetGrid super aBox with
  | Some (grid, index) =>
      let isRow := IsHorizontal super aBox in
      let extraColumns := GetExtraColumnCount grid isRow in
      let start := sub32 (GetColumnCount grid isRow) (GetExtraColumnCount grid isRow) in
      (rv, addExtraColumns (GetPrefRowHeight grid) isRow extraColumns start aSize)
  | None => (rv, aSize)
  end.

Definition GetMaxSize (aBox : Box) (aSize : nsSize) : nsresult * nsSize :=
  let '(rv, aSize) := nsGridRowLayout_GetMaxSize super aBox aSize in
  match GetGrid super aBox with
  | Some (grid, index) =>
      let isRow := IsHorizontal super aBox in
      let extraColumns := GetExtraColumnCount grid isRow in
      let start := sub32 (GetColumnCount grid isRow) (GetExtraColumnCount grid isRow) in
      (rv, addExtraColumns (GetMaxRowHeight grid) isRow extraColumns start aSize)
  | None => (rv, aSize)
  end.

Definition GetMinSize (aBox : Box) (aSize : nsSize) : nsresult * nsSize :=
  let '(rv, aSize) := nsGridRowLayout_GetMinSize super aBox aSize in
  match GetGrid super aBox with
  | Some (grid, index) =>
      let isRow := IsHorizontal super aBox in
      let extraColumns := GetExtraColumnCount grid isRow in
      let start := sub32 (GetColumnCount grid isRow) (GetExtraColumnCount grid isRow) in
      (rv, addExtraColumns (GetMinRowHeight grid) isRow extraColumns start aSize)
  | None => (rv, aSize)
  end.

(** The aggregation the specification describes: the sizes of the
    extra columns, the indices from [GetColumnCount - GetExtraColumnCount]
    up to [GetColumnCount], read on the other axis and folded with
    [AddWidth] into a base size. *)
Definition extraColumnSizes (rowHeight : Z -> bool -> nscoord)
    (grid : nsGrid) (isRow : bool) : list nscoord :=
  map (fun i => rowHeight i (negb isRow))
      (seqZ (GetColumnCount grid isRow - GetExtraColumnCount grid isRow)
            (GetExtraColumnCount grid isRow)).

Definition foldSizes (isRow : bool) (sizes : list nscoord) (aSize : nsSize) : nsSize :=
  foldl (fun acc s => AddWidth acc s isRow) aSize sizes.

End Sizing.

(** ** Child classification *)

(** The scrolled box of a scrollable frame, the box itself otherwise.
    The assertion of the source only reports a scrollable frame
    without a scrolled frame: the [nsnull] is returned. *)
Definition CheckForScrollFrame (aChild : Box) : option Box :=
  match mScrolled aChild with
  | Some scrolledFrame => scrolledFrame
  | None => Some aChild
  end.

(** [CheckForScrollFrame] followed by a use of its result, written with
    the three cases apart so that the box handed to [k] is visibly a
    part of [aChild]; [unwrapThen_CheckForScrollFrame] states that it
    is the same. *)
Definition unwrapThen {A} (aChild : Box) (null : A) (k : Box -> A) : A :=
  match mScrolled aChild with
  | Some None => null
  | Some (Some scrolled) => k scrolled
  | None => k aChild
  end.

(** [deepChild = CheckForScrollFrame(child); deepChild->...]: the method
    call through [deepChild] crashes when it is [nsnull]. *)
Definition withDeepChild {A} (child : Box) (k : Box -> Result A) : Result A :=
  unwrapThen child (Crash NullDeref) k.

(** What [do_QueryInterface] to [nsIGridPart] finds behind a layout
    manager. *)
Inductive GridPart : Type :=
| RowGroupPart
| OtherPart (impl : nat).

Definition QueryGridPart (layout : nsIBoxLayout) : option GridPart :=
  match layout with
  | PlainLayout => None
  | GridRowGroupLayout => Some RowGroupPart
  | OtherGridPart impl => Some (OtherPart impl)
  end.

(** [GetLayoutManager], then the query for [nsIGridPart] when there is
    a layout manager. *)
Definition monumentOf (deepChild : Box) : option GridPart :=
  match GetLayoutManager deepChild with
  | Some layout => QueryGridPart layout
  | None => None
  end.

(** ** The row buffer *)

(** [aRows[i] = row] in a buffer of [length mem] slots. *)
Definition store (mem : list nsGridRow) (i : Z) (row : nsGridRow)
  : Result (list nsGridRow) :=
  if (0 <=? i) && (i <? Z.of_nat (length mem))
  then Ok (<[Z.to_nat i := row]> mem)
  else Crash BufferOverrun.

Fixpoint storeRows (mem : list nsGridRow) (i : Z) (rows : list nsGridRow)
  : Result (list nsGridRow) :=
  match rows with
  | [] => Ok mem
  | row :: rows' => mem' ← store mem i row; storeRows mem' (i + 1) rows'
  end.

(** ** Other grid parts *)

(** Modelled from the spec: the other implementations of [nsIGridPart]
    (rows, columns, the grid itself) are outside this file.  One is
    given by the rows it contributes for a box, by what it does to the
    computed column count and by the boxes it marks dirty; its three
    methods count those rows, write them one after the other from the
    start of the buffer it is handed and report how many, and mark
    those boxes. *)
Record nsIGridPart : Type := mkPart {
  part_rows : Box -> list nsGridRow;
  part_columns : Box -> Z -> Z;
  part_dirty : Box -> gset nat
}.

Definition part_CountRowsColumns (p : nsIGridPart) (aBox : Box)
    (aRowCount aComputedColumnCount : Z) : Z * Z :=
  (add32 aRowCount (Z.of_nat (length (part_rows p aBox))),
   part_columns p aBox aComputedColumnCount).

Definition part_BuildRows (p : nsIGridPart) (aBox : Box)
    (aRows : Z) (mem : list nsGridRow) : Result (list nsGridRow * Z) :=
  mem' ← storeRows mem aRows (part_rows p aBox);
  Ok (mem', wrap32 (Z.of_nat (length (part_rows p aBox)))).

Definition part_DirtyRows (p : nsIGridPart) (aBox : Box)
    (dirty : gset nat) : gset nat :=
  dirty ∪ part_dirty p aBox.

(** Modelled from the spec: [nsIBox::MarkDirty] is outside this file;
    it sets the dirty flag of the box. *)
Definition MarkDirty (aBox : Box) (dirty : gset nat) : gset nat :=
  dirty ∪ {[ mAddr aBox ]}.

(** ** The three traversals *)

Section Traversal.

(** The implementation behind each [OtherGridPart]. *)
Variable vtable : nat -> nsIGridPart.

(** The [while(child)] loop of [DirtyRows]; [monument_DirtyRows] is
    the virtual call [monument->DirtyRows(deepChild, aState)]. *)
Definition DirtyRows_children
    (monument_DirtyRows : GridPart -> Box -> gset nat -> Result (gset nat))
  : list Box -> gset nat -> Result (gset nat) :=
  fix while_child (child : list Box) (dirty : gset nat) {struct child} :=
    match child with
    | [] => Ok dirty
    | ch :: next =>
        withDeepChild ch (fun deepChild =>
          match monumentOf deepChild with
          | Some monument =>
              dirty ← monument_DirtyRows monument deepChild dirty;
              while_child next dirty
          | None => while_child next dirty
          end)
    end.

(** The body of [if (aBox) { ... }] in [DirtyRows]. *)
Fixpoint DirtyRows_in (aBox : Box) (dirty : gset nat) {struct aBox}
  : Result (gset nat) :=
  let dirty := MarkDirty aBox dirty in
  DirtyRows_children
    (fun monument deepChild dirty =>
       match monument with
       | RowGroupPart => DirtyRows_in deepChild dirty
       | OtherPart impl => Ok (part_DirtyRows (vtable impl) deepChild dirty)
       end)
    (GetChildBoxes aBox) dirty.

Definition DirtyRows (aBox : option Box) (dirty : gset nat)
  : Result (nsresult * gset nat) :=
  match aBox with
  | Some box => dirty ← DirtyRows_in box dirty; Ok (NS_OK, dirty)
  | None => Ok (NS_OK, dirty)
  end.

(** The virtual call [monument->DirtyRows(deepChild, aState)]; the
    status it returns is not looked at. *)
Definition monument_DirtyRows (monument : GridPart) (deepChild : Box)
    (dirty : gset nat) : Result (gset nat) :=
  match monument with
  | RowGroupPart => DirtyRows_in deepChild dirty
  | OtherPart impl => Ok (part_DirtyRows (vtable impl) deepChild dirty)
  end.

(** The loop of [CountRowsColumns]. *)
Definition CountRowsColumns_children
    (monument_CountRowsColumns : GridPart -> Box -> Z -> Z -> Result (Z * Z))
  : list Box -> Z -> Z -> Result (Z * Z) :=
  fix while_child (child : list Box) (aRowCount aComputedColumnCount : Z)
      {struct child} :=
    match child with
    | [] => Ok (aRowCount, aComputedColumnCount)
    | ch :: next =>
        withDeepChild ch (fun deepChild =>
          match monumentOf deepChild with
          | Some monument =>
              counts ← monument_CountRowsColumns monument deepChild
                         aRowCount aComputedColumnCount;
              while_child next counts.1 counts.2
          | None =>
              (* if not a monument. Then count it. It will be a bogus row *)
              while_child next (add32 aRowCount 1) aComputedColumnCount
          end)
    end.

Fixpoint CountRowsColumns_in (aBox : Box) (aRowCount aComputedColumnCount : Z)
    {struct aBox} : Result (Z * Z) :=
  CountRowsColumns_children
    (fun monument deepChild aRowCount aComputedColumnCount =>
       match monument with
       | RowGroupPart =>
           CountRowsColumns_in deepChild aRowCount aComputedColumnCount
       | OtherPart impl =>
           Ok (part_CountRowsColumns (vtable impl) deepChild
                 aRowCount aComputedColumnCount)
       end)
    (GetChildBoxes aBox) aRowCount aComputedColumnCount.

Definition CountRowsColumns (aBox : option Box)
    (aRowCount aComputedColumnCount : Z) : Result (nsresult * (Z * Z)) :=
  match aBox with
  | Some box =>
      counts ← CountRowsColumns_in box aRowCount aComputedColumnCount;
      Ok (NS_OK, counts)
  | None => Ok (NS_OK, (aRowCount, aComputedColumnCount))
  end.

Definition monument_CountRowsColumns (monument : GridPart) (deepChild : Box)
    (aRowCount aComputedColumnCount : Z) : Result (Z * Z) :=
  match monument with
  | RowGroupPart => CountRowsColumns_in deepChild aRowCount aComputedColumnCount
  | OtherPart impl =>
      Ok (part_CountRowsColumns (vtable impl) deepChild
            aRowCount aComputedColumnCount)
  end.

(** The loop of [BuildRows].  [aRows] is the index in [mem] of the
    slot the pointer [aRows] points to, so [&aRows[rowCount]] is
    [aRows + rowCount]. *)
Definition BuildRows_children
    (monument_BuildRows : GridPart -> Box -> Z -> list nsGridRow ->
                          Result (list nsGridRow * Z))
    (aRows : Z)
  : list Box -> list nsGridRow -> Z -> Result (list nsGridRow * Z) :=
  fix while_child (child : list Box) (mem : list nsGridRow) (rowCount : Z)
      {struct child} :=
    match child with
    | [] => Ok (mem, rowCount)
    | ch :: next =>
        withDeepChild ch (fun deepChild =>
          match monumentOf deepChild with
          | Some monument =>
              built ← monument_BuildRows monument deepChild (aRows + rowCount) mem;
              while_child next built.1 (add32 rowCount built.2)
          | None =>
              mem ← store mem (aRows + rowCount) (Init ch true);
              while_child next mem (add32 rowCount 1)
          end)
    end.

Fixpoint BuildRows_in (aBox : Box) (aRows : Z) (mem : list nsGridRow)
    {struct aBox} : Result (list nsGridRow * Z) :=
  BuildRows_children
    (fun monument deepChild aRows mem =>
       match monument with
       | RowGroupPart => BuildRows_in deepChild aRows mem
       | OtherPart impl => part_BuildRows (vtable impl) deepChild aRows mem
       end)
    aRows (GetChildBoxes aBox) mem 0.

(** [*aCount = rowCount] is the second component of the result. *)
Definition BuildRows (aBox : option Box) (aRows : Z) (mem : list nsGridRow)
  : Result (nsresult * (list nsGridRow * Z)) :=
  match aBox with
  | Some box => built ← BuildRows_in box aRows mem; Ok (NS_OK, built)
  | None => Ok (NS_OK, (mem, 0))
  end.

Definition monument_BuildRows (monument : GridPart) (deepChild : Box)
    (aRows : Z) (mem : list nsGridRow) : Result (list nsGridRow * Z) :=
  match monument with
  | RowGroupPart => BuildRows_in deepChild aRows mem
  | OtherPart impl => part_BuildRows (vtable impl) deepChild aRows mem
  end.

(** *** What the specification says the traversals compute *)

(** The children all resolve: no child that is a scrollable frame
    lacks its scrolled box, here and in the nested row groups. *)
Definition childResolved (resolved : Box -> bool) (child : Box) : bool :=
  unwrapThen child false (fun effective =>
    match monumentOf effective with
    | Some RowGroupPart => resolved effective
    | _ => true
    end).

Fixpoint scrollsResolved (box : Box) : bool :=
  forallb (childResolved scrollsResolved) (GetChildBoxes box).

(** The logical rows of a box, in document order: one generated row
    for a child that is no monument, referring to the child itself,
    and the rows of the monument in the place of a child that is
    one. *)
Definition childRows (rows : Box -> list nsGridRow) (child : Box)
  : list nsGridRow :=
  unwrapThen child [] (fun effective =>
    match monumentOf effective with
    | Some RowGroupPart => rows effective
    | Some (OtherPart impl) => part_rows (vtable impl) effective
    | None => [ {| mBox := Some (mAddr child); mIsBogus := true |} ]
    end).

Fixpoint logicalRows (box : Box) : list nsGridRow :=
  flat_map (childRows logicalRows) (GetChildBoxes box).

(** The computed column count after the monuments among the children
    have seen it, in document order. *)
Definition childColumns (columns : Box -> Z -> Z) (computed : Z) (child : Box) : Z :=
  unwrapThen child computed (fun effective =>
    match monumentOf effective with
    | Some RowGroupPart => columns effective computed
    | Some (OtherPart impl) => part_columns (vtable impl) effective computed
    | None => computed
    end).

Fixpoint computedColumns (box : Box) (computed : Z) : Z :=
  foldl (childColumns computedColumns) computed (GetChildBoxes box).

(** The boxes a dirty request on a box marks: the box, and what the
    monuments among its children mark. *)
Definition childDirty (marks : Box -> gset nat) (child : Box) : gset nat :=
  unwrapThen child ∅ (fun effective =>
    match monumentOf effective with
    | Some RowGroupPart => marks effective
    | Some (OtherPart impl) => part_dirty (vtable impl) effective
    | None => ∅
    end).

Fixpoint dirtySet (box : Box) : gset nat :=
  {[ mAddr box ]} ∪ ⋃ (map (childDirty dirtySet) (GetChildBoxes box)).

(** No grid part of another class is reached: the monuments among the
    children are row groups, and so on inside them. *)
Definition childOnlyRowGroups (only : Box -> bool) (child : Box) : bool :=
  unwrapThen child true (fun effective =>
    match monumentOf effective with
    | Some RowGroupPart => only effective
    | Some (OtherPart _) => false
    | None => true
    end).

Fixpoint onlyRowGroups (box : Box) : bool :=
  forallb (childOnlyRowGroups onlyRowGroups) (GetChildBoxes box).

(** A child that is a monument, after the scroll frame is unwrapped. *)
Definition isMonument (child : Box) : bool :=
  unwrapThen child false (fun effective =>
    match monumentOf effective with Some _ => true | None => false end).

End Traversal.

(** A buffer of [n] rows as their constructor leaves them. *)
Definition blankRow : nsGridRow := {| mBox := None; mIsBogus := false |}.
Definition blankRows (n : Z) : list nsGridRow := replicate (Z.to_nat n) blankRow.

(** The buffer [mem] with [rows] in the slots from [i] on. *)
Definition splice (mem : list nsGridRow) (i : nat) (rows : list nsGridRow)
  : list nsGridRow :=
  take i mem ++ rows ++ drop (i + length rows) mem.

(** The same box with other children. *)
Definition withChildren (box : Box) (kids : list Box) : Box :=
  match box with mkBox a s l _ => mkBox a s l kids end.

(** ** Sample trees *)

Module Sample.

(** An implementation of [nsIGridPart] in the manner of a grid row:
    one row for its box, the number of its children as a lower bound
    of the column count, its box marked dirty. *)
Definition rowPart : nsIGridPart :=
  {| part_rows := fun b => [ {| mBox := Some (mAddr b); mIsBogus := false |} ];
     part_columns := fun b c => Z.max c (Z.of_nat (length (GetChildBoxes b)));
     part_dirty := fun b => {[ mAddr b ]} |}.

Definition vtable (impl : nat) : nsIGridPart := rowPart.

Definition plain (a : nat) : Box := mkBox a None None [].
Definition row (a : nat) (kids : list Box) : Box :=
  mkBox a None (Some (OtherGridPart 0)) kids.
Definition rows (a : nat) (kids : list Box) : Box :=
  mkBox a None (Some GridRowGroupLayout) kids.
Definition scroll (a : nat) (inner : option Box) : Box :=
  mkBox a (Some inner) (Some PlainLayout) [].

(** A row group with a nested row group of two plain boxes and one
    plain box of its own. *)
Definition nested : Box := rows 1 [rows 2 [plain 3; plain 4]; plain 5].

(** A row group with a row group behind a scroll frame, a row, and a
    plain box behind a scroll frame. *)
Definition mixed : Box :=
  rows 10 [ scroll 11 (Some (rows 12 [plain 13; row 14 [plain 15; plain 16]]));
            row 17 [plain 18];
            scroll 19 (Some (plain 20)) ].

(** A row group one of whose children is a scrollable frame without
    a scrolled box. *)
Definition broken : Box := rows 30 [plain 31; scroll 32 None; plain 33].

(** The value [1 << 30] of [NS_INTRINSICSIZE] in nsIFrame.h. *)
Definition NS_INTRINSICSIZE : nscoord := 1073741824.

(** A grid of five columns, the last two of them extra, with the sizes
    of the extra columns on the other axis. *)
Definition extras (s3 s4 : nscoord) (i : Z) (isHorizontal : bool) : nscoord :=
  if i =? 3 then s3 else if i =? 4 then s4 else 0.

Definition grid : nsGrid :=
  {| GetColumnCount := fun _ => 5;
     GetExtraColumnCount := fun _ => 2;
     GetPrefRowHeight := extras 10 15;
     GetMaxRowHeight := extras 100 150;
     GetMinRowHeight := extras 1 2 |}.

(** A base class that finds [grid] for every box, or no grid at all,
    and whose size queries leave the size they are passed. *)
Definition inGrid : nsGridRowLayout :=
  {| GetGrid := fun _ => Some (grid, 1);
     IsHorizontal := fun _ => true;
     nsGridRowLayout_GetPrefSize := fun _ sz => (NS_OK, sz);
     nsGridRowLayout_GetMaxSize := fun _ sz => (NS_OK, sz);
     nsGridRowLayout_GetMinSize := fun _ sz => (NS_OK, sz) |}.

Definition noGrid : nsGridRowLayout :=
  {| GetGrid := fun _ => None;
     IsHorizontal := fun _ => false;
     nsGridRowLayout_GetPrefSize := fun _ sz => (NS_OK, sz);
     nsGridRowLayout_GetMaxSize := fun _ sz => (NS_ERROR 1, sz);
     nsGridRowLayout_GetMinSize := fun _ sz => (NS_OK, sz) |}.

(** A row group of three plain boxes. *)
Definition three : Box := rows 40 [plain 41; plain 42; plain 43].

End Sample.

(** * Properties *)

(** ** Arithmetic *)

Lemma wrap32_int32 z : int32 z -> wrap32 z = z.
Proof.
  unfold int32, wrap32, PR_INT32_MIN, PR_INT32_MAX. intros H.
  rewrite Z.mod_small; lia.
Qed.

Lemma int32_wrap32 z : int32 (wrap32 z).
Proof.
  unfold int32, wrap32, PR_INT32_MIN, PR_INT32_MAX.
  pose proof (Z.mod_pos_bound (z + 2147483648) 4294967296). lia.
Qed.

Lemma wrap32_add_l a b : wrap32 (wrap32 a + b) = wrap32 (a + b).
Proof.
  unfold wrap32.
  replace ((a + 2147483648) mod 4294967296 - 2147483648 + b + 2147483648)
    with ((a + 2147483648) mod 4294967296 + b) by lia.
  rewrite Zplus_mod_idemp_l. do 2 f_equal. lia.
Qed.

Lemma wrap32_add_r a b : wrap32 (a + wrap32 b) = wrap32 (a + b).
Proof. rewrite (Z.add_comm a), wrap32_add_l. f_equal. lia. Qed.

Lemma add32_int32 a b : int32 (a + b) -> add32 a b = a + b.
Proof. apply wrap32_int32. Qed.

(** ** The frame tree *)

(** Induction over the frame tree: the property holds for the scrolled
    box and for every child. *)
Lemma Box_tree_ind (P : Box -> Prop)
  (step : forall a sc l kids,
      (forall d, sc = Some (Some d) -> P d) ->
      Forall P kids -> P (mkBox a sc l kids)) : forall b, P b.
Proof.
  fix go 1. intros [a sc l kids]. apply step.
  - destruct sc as [[d'|]|]; intros d E; try discriminate E.
    injection E as <-. apply go.
  - induction kids as [|k ks IH]; constructor; [apply go | exact IH].
Qed.

Lemma unwrapThen_CheckForScrollFrame {A} (child : Box) (null : A) (k : Box -> A) :
  unwrapThen child null k =
  match CheckForScrollFrame child with
  | Some deepChild => k deepChild
  | None => null
  end.
Proof.
  unfold unwrapThen, CheckForScrollFrame.
  destruct (mScrolled child) as [[d|]|]; reflexivity.
Qed.

(** Induction over the boxes the traversals reach: a property holds of
    a box when it holds of the unwrapped children. *)
Lemma Box_effective_ind (P : Box -> Prop)
  (step : forall b,
      (forall child eff, child ∈ GetChildBoxes b ->
                         CheckForScrollFrame child = Some eff -> P eff) ->
      P b) : forall b, P b.
Proof.
  intros b.
  enough (P b /\ forall d, mScrolled b = Some (Some d) -> P d) by tauto.
  induction b as [a sc l kids IHsc IHkids] using Box_tree_ind. split.
  - apply step. simpl. intros child eff Hin Heff.
    rewrite Forall_forall in IHkids. destruct (IHkids child Hin) as [Hc Hs].
    unfold CheckForScrollFrame in Heff.
    destruct (mScrolled child) as [sf|] eqn:E.
    + subst sf. apply Hs. reflexivity.
    + injection Heff as <-. exact Hc.
  - simpl. intros d E. exact (proj1 (IHsc d E)).
Qed.

(** ** Size aggregation *)

Section SizingFacts.

Variable NS_INTRINSICSIZE : nscoord.
Variable super : nsGridRowLayout.

Lemma GET_SET_WIDTH sz isRow v : GET_WIDTH (SET_WIDTH sz isRow v) isRow = v.
Proof. destruct isRow; reflexivity. Qed.

Lemma GET_HEIGHT_SET_WIDTH sz isRow v :
  GET_HEIGHT (SET_WIDTH sz isRow v) isRow = GET_HEIGHT sz isRow.
Proof. destruct isRow; reflexivity. Qed.

Lemma AddWidth_intrinsic sz s isRow :
  GET_WIDTH sz isRow = NS_INTRINSICSIZE \/ s = NS_INTRINSICSIZE ->
  AddWidth NS_INTRINSICSIZE sz s isRow = SET_WIDTH sz isRow NS_INTRINSICSIZE.
Proof.
  intros H. unfold AddWidth.
  assert ((GET_WIDTH sz isRow =? NS_INTRINSICSIZE) || (s =? NS_INTRINSICSIZE) = true)
    as -> by (apply orb_true_iff; rewrite !Z.eqb_eq; exact H).
  reflexivity.
Qed.

Lemma AddWidth_finite sz s isRow :
  GET_WIDTH sz isRow <> NS_INTRINSICSIZE -> s <> NS_INTRINSICSIZE ->
  AddWidth NS_INTRINSICSIZE sz s isRow = SET_WIDTH sz isRow (add32 (GET_WIDTH sz isRow) s).
Proof.
  intros H1 H2. unfold AddWidth.
  apply Z.eqb_neq in H1, H2. rewrite H1, H2. reflexivity.
Qed.

(** The other axis is never touched. *)
Lemma AddWidth_other_axis sz s isRow :
  GET_HEIGHT (AddWidth NS_INTRINSICSIZE sz s isRow) isRow = GET_HEIGHT sz isRow.
Proof.
  unfold AddWidth.
  destruct (_ || _); apply GET_HEIGHT_SET_WIDTH.
Qed.

(** Once the size is intrinsic it stays so. *)
Lemma foldSizes_intrinsic isRow sizes sz :
  GET_WIDTH sz isRow = NS_INTRINSICSIZE ->
  GET_WIDTH (foldSizes NS_INTRINSICSIZE isRow sizes sz) isRow = NS_INTRINSICSIZE.
Proof.
  revert sz. induction sizes as [|s sizes IH]; intros sz H; simpl; [exact H|].
  apply IH. rewrite AddWidth_intrinsic by (left; exact H).
  apply GET_SET_WIDTH.
Qed.

Lemma foldSizes_dominated isRow sizes sz :
  In NS_INTRINSICSIZE sizes ->
  GET_WIDTH (foldSizes NS_INTRINSICSIZE isRow sizes sz) isRow = NS_INTRINSICSIZE.
Proof.
  revert sz. induction sizes as [|s sizes IH]; intros sz H; simpl; [destruct H|].
  destruct H as [->|H].
  - apply foldSizes_intrinsic.
    rewrite AddWidth_intrinsic by (right; reflexivity). apply GET_SET_WIDTH.
  - apply IH, H.
Qed.

(** The loop over [i] is the fold over the sizes of the extra columns
    when the counts of the grid are what the grid promises. *)
Lemma addExtraColumns_foldSizes rowHeight grid isRow sz :
  0 <= GetExtraColumnCount grid isRow <= GetColumnCount grid isRow ->
  GetColumnCount grid isRow <= PR_INT32_MAX ->
  addExtraColumns NS_INTRINSICSIZE rowHeight isRow
    (GetExtraColumnCount grid isRow)
    (sub32 (GetColumnCount grid isRow) (GetExtraColumnCount grid isRow)) sz
  = foldSizes NS_INTRINSICSIZE isRow (extraColumnSizes rowHeight grid isRow) sz.
Proof.
  intros Hc Hmax. unfold addExtraColumns, foldSizes, extraColumnSizes.
  set (cc := GetColumnCount grid isRow) in *.
  set (ec := GetExtraColumnCount grid isRow) in *.
  assert (Hs : sub32 cc ec = cc - ec).
  { apply wrap32_int32. unfold int32, PR_INT32_MIN, PR_INT32_MAX in *. lia. }
  rewrite Hs.
  assert (Hseq : seqZ (cc - ec) ec = (fun i => add32 i (cc - ec)) <$> seqZ 0 ec).
  { apply list_eq. intros k. rewrite list_lookup_fmap.
    destruct (decide (Z.of_nat k < ec)) as [Hk|Hk].
    - rewrite !lookup_seqZ_lt by lia. simpl. f_equal.
      rewrite add32_int32; [lia|].
      unfold int32, PR_INT32_MIN, PR_INT32_MAX in *. lia.
    - rewrite !lookup_seqZ_ge by lia. reflexivity. }
  rewrite Hseq. clear Hseq Hs.
  generalize (seqZ 0 ec). intros l. revert sz.
  induction l as [|i l IH]; intros sz; simpl; [reflexivity|]. apply IH.
Qed.

End SizingFacts.

(** C3.  The aggregation step on the axis of the row group: the result
    is the intrinsic size as soon as the accumulated size or the size
    added is the intrinsic size, and their sum otherwise, the sum of
    two [nscoord] being [add32], which is the sum of the integers
    whenever that is an [nscoord].  The other axis keeps its size.  So
    one intrinsic size among those folded in makes the result
    intrinsic, whatever the others are. *)
Theorem AddWidth_intrinsic_or_sum :
  forall (NS_INTRINSICSIZE : nscoord) (sz : nsSize) (s : nscoord) (isRow : bool),
    let acc := GET_WIDTH sz isRow in
    let res := AddWidth NS_INTRINSICSIZE sz s isRow in
    (acc = NS_INTRINSICSIZE \/ s = NS_INTRINSICSIZE ->
       GET_WIDTH res isRow = NS_INTRINSICSIZE)
    /\ (acc <> NS_INTRINSICSIZE -> s <> NS_INTRINSICSIZE ->
          GET_WIDTH res isRow = add32 acc s
          /\ (int32 (acc + s) -> GET_WIDTH res isRow = acc + s))
    /\ GET_HEIGHT res isRow = GET_HEIGHT sz isRow
    /\ (forall sizes, In NS_INTRINSICSIZE sizes ->
          GET_WIDTH (foldSizes NS_INTRINSICSIZE isRow sizes sz) isRow
          = NS_INTRINSICSIZE).
Proof.
  intros S sz s isRow acc res. subst acc res. repeat split.
  - intros H. rewrite AddWidth_intrinsic by exact H. apply GET_SET_WIDTH.
  - rewrite AddWidth_finite by assumption. apply GET_SET_WIDTH.
  - intros Hr. rewrite AddWidth_finite by assumption.
    rewrite GET_SET_WIDTH. apply add32_int32, Hr.
  - apply AddWidth_other_axis.
  - intros sizes. apply foldSizes_dominated.
Qed.

(** C4.  Without a grid the three size queries return what the queries
    of the base class return, status and size. *)
Theorem GetSize_without_grid :
  forall (NS_INTRINSICSIZE : nscoord) (super : nsGridRowLayout)
         (aBox : Box) (aSize : nsSize),
    GetGrid super aBox = None ->
    GetPrefSize NS_INTRINSICSIZE super aBox aSize
      = nsGridRowLayout_GetPrefSize super aBox aSize
    /\ GetMaxSize NS_INTRINSICSIZE super aBox aSize
      = nsGridRowLayout_GetMaxSize super aBox aSize
    /\ GetMinSize NS_INTRINSICSIZE super aBox aSize
      = nsGridRowLayout_GetMinSize super aBox aSize.
Proof.
  intros S super aBox aSize H. unfold GetPrefSize, GetMaxSize, GetMinSize.
  rewrite H.
  destruct (nsGridRowLayout_GetPrefSize super aBox aSize),
           (nsGridRowLayout_GetMaxSize super aBox aSize),
           (nsGridRowLayout_GetMinSize super aBox aSize).
  repeat split.
Qed.

Lemma GetSize_without_grid_witness :
  GetGrid Sample.noGrid Sample.three = None
  /\ GetPrefSize Sample.NS_INTRINSICSIZE Sample.noGrid Sample.three (mkSize 30 40)
    = (NS_OK, mkSize 30 40)
  /\ GetMaxSize Sample.NS_INTRINSICSIZE Sample.noGrid Sample.three (mkSize 30 40)
    = (NS_ERROR 1, mkSize 30 40)
  /\ GetMinSize Sample.NS_INTRINSICSIZE Sample.noGrid Sample.three (mkSize 30 40)
    = (NS_OK, mkSize 30 40).
Proof.
  split; [reflexivity|].
  apply (GetSize_without_grid Sample.NS_INTRINSICSIZE Sample.noGrid
           Sample.three (mkSize 30 40)).
  reflexivity.
Defined.

(** C8.  [ChildAddedOrRemoved] returns [NS_OK]; with a grid it makes
    the one call [RowAddedOrRemoved] on that grid with the index of the
    box and its orientation, and without a grid it makes no call. *)
Theorem ChildAddedOrRemoved_notifies_grid :
  forall (super : nsGridRowLayout) (aBox : Box) (calls : list GridCall),
    (forall grid index,
        GetGrid super aBox = Some (grid, index) ->
        ChildAddedOrRemoved super aBox calls
        = (NS_OK, calls ++ [RowAddedOrRemoved grid index (IsHorizontal super aBox)]))
    /\ (GetGrid super aBox = None ->
        ChildAddedOrRemoved super aBox calls = (NS_OK, calls)).
Proof.
  intros super aBox calls. unfold ChildAddedOrRemoved.
  split; [intros grid index H | intros H]; rewrite H; reflexivity.
Qed.

(** With a grid, each size query is the query of the base class
    followed by the loop over the extra columns. *)
Lemma GetPrefSize_with_grid S super aBox aSize grid index :
  GetGrid super aBox = Some (grid, index) ->
  let isRow := IsHorizontal super aBox in
  0 <= GetExtraColumnCount grid isRow <= GetColumnCount grid isRow ->
  GetColumnCount grid isRow <= PR_INT32_MAX ->
  GetPrefSize S super aBox aSize
  = ((nsGridRowLayout_GetPrefSize super aBox aSize).1,
     foldSizes S isRow (extraColumnSizes (GetPrefRowHeight grid) grid isRow)
       (nsGridRowLayout_GetPrefSize super aBox aSize).2).
Proof.
  intros Hg isRow Hc Hmax. unfold GetPrefSize. rewrite Hg.
  destruct (nsGridRowLayout_GetPrefSize super aBox aSize) as [rv sz]. simpl.
  f_equal. apply addExtraColumns_foldSizes; assumption.
Qed.

Lemma GetMaxSize_with_grid S super aBox aSize grid index :
  GetGrid super aBox = Some (grid, index) ->
  let isRow := IsHorizontal super aBox in
  0 <= GetExtraColumnCount grid isRow <= GetColumnCount grid isRow ->
  GetColumnCount grid isRow <= PR_INT32_MAX ->
  GetMaxSize S super aBox aSize
  = ((nsGridRowLayout_GetMaxSize super aBox aSize).1,
     foldSizes S isRow (extraColumnSizes (GetMaxRowHeight grid) grid isRow)
       (nsGridRowLayout_GetMaxSize super aBox aSize).2).
Proof.
  intros Hg isRow Hc Hmax. unfold GetMaxSize. rewrite Hg.
  destruct (nsGridRowLayout_GetMaxSize super aBox aSize) as [rv sz]. simpl.
  f_equal. apply addExtraColumns_foldSizes; assumption.
Qed.

Lemma GetMinSize_with_grid S super aBox aSize grid index :
  GetGrid super aBox = Some (grid, index) ->
  let isRow := IsHorizontal super aBox in
  0 <= GetExtraColumnCount grid isRow <= GetColumnCount grid isRow ->
  GetColumnCount grid isRow <= PR_INT32_MAX ->
  GetMinSize S super aBox aSize
  = ((nsGridRowLayout_GetMinSize super aBox aSize).1,
     foldSizes S isRow (extraColumnSizes (GetMinRowHeight grid) grid isRow)
       (nsGridRowLayout_GetMinSize super aBox aSize).2).
Proof.
  intros Hg isRow Hc Hmax. unfold GetMinSize. rewrite Hg.
  destruct (nsGridRowLayout_GetMinSize super aBox aSize) as [rv sz]. simpl.
  f_equal. apply addExtraColumns_foldSizes; assumption.
Qed.

(** Two finite sizes folded into a finite size are both added when the
    first sum is not by accident the intrinsic size. *)
Lemma foldSizes_two S isRow s1 s2 sz :
  GET_WIDTH sz isRow <> S -> s1 <> S -> s2 <> S ->
  add32 (GET_WIDTH sz isRow) s1 <> S ->
  GET_WIDTH (foldSizes S isRow [s1; s2] sz) isRow
  = wrap32 (GET_WIDTH sz isRow + (s1 + s2)).
Proof.
  intros H0 H1 H2 H3. unfold foldSizes. cbn [foldl].
  rewrite (AddWidth_finite S sz s1) by assumption.
  rewrite AddWidth_finite by (rewrite ?GET_SET_WIDTH; assumption).
  rewrite !GET_SET_WIDTH. unfold add32. rewrite wrap32_add_l. f_equal. lia.
Qed.

(** Whatever the intrinsic size is, a finite size that the first of two
    columns takes to it stays there: the second column is not added. *)
Lemma foldSizes_collision S isRow s1 s2 sz :
  GET_WIDTH sz isRow <> S -> s1 <> S ->
  add32 (GET_WIDTH sz isRow) s1 = S ->
  GET_WIDTH (foldSizes S isRow [s1; s2] sz) isRow = S.
Proof.
  intros H0 H1 H2. unfold foldSizes. cbn [foldl].
  rewrite (AddWidth_finite S sz s1), H2 by assumption.
  rewrite AddWidth_intrinsic by (left; apply GET_SET_WIDTH).
  apply GET_SET_WIDTH.
Qed.

(** C2, as the code has it.  For a box with a grid whose counts satisfy
    the invariant of the grid, each of the three size queries returns
    the status of the base class and its size with the sizes of the
    extra columns, those at the indices from
    [GetColumnCount - GetExtraColumnCount] up to [GetColumnCount], read
    with the accessor of the same kind on the other axis and folded
    with [AddWidth] into the component on the axis of the box.  With
    two extra columns of finite sizes [s1] and [s2] and a finite size
    of the base class, the result on that axis is that size plus
    [s1 + s2] when the size plus [s1] is not the intrinsic size. *)
Theorem GetSize_folds_extra_columns :
  forall (NS_INTRINSICSIZE : nscoord) (super : nsGridRowLayout)
         (aBox : Box) (aSize : nsSize) (grid : nsGrid) (index : Z),
    GetGrid super aBox = Some (grid, index) ->
    let isRow := IsHorizontal super aBox in
    let columns := GetColumnCount grid isRow in
    let extra := GetExtraColumnCount grid isRow in
    0 <= extra <= columns -> columns <= PR_INT32_MAX ->
    let folded rowHeight base :=
      (base.1, foldSizes NS_INTRINSICSIZE isRow
                 (map (fun i => rowHeight i (negb isRow))
                      (seqZ (columns - extra) extra)) base.2) in
    GetPrefSize NS_INTRINSICSIZE super aBox aSize
      = folded (GetPrefRowHeight grid) (nsGridRowLayout_GetPrefSize super aBox aSize)
    /\ GetMaxSize NS_INTRINSICSIZE super aBox aSize
      = folded (GetMaxRowHeight grid) (nsGridRowLayout_GetMaxSize super aBox aSize)
    /\ GetMinSize NS_INTRINSICSIZE super aBox aSize
      = folded (GetMinRowHeight grid) (nsGridRowLayout_GetMinSize super aBox aSize)
    /\ (forall s1 s2,
          extra = 2 ->
          GetPrefRowHeight grid (columns - 2) (negb isRow) = s1 ->
          GetPrefRowHeight grid (columns - 1) (negb isRow) = s2 ->
          let base := GET_WIDTH (nsGridRowLayout_GetPrefSize super aBox aSize).2 isRow in
          base <> NS_INTRINSICSIZE ->
          s1 <> NS_INTRINSICSIZE -> s2 <> NS_INTRINSICSIZE ->
          add32 base s1 <> NS_INTRINSICSIZE ->
          GET_WIDTH (GetPrefSize NS_INTRINSICSIZE super aBox aSize).2 isRow
            = wrap32 (base + (s1 + s2))).
Proof.
  intros S super aBox aSize grid index Hg isRow columns extra Hc Hmax folded.
  subst folded. cbv beta.
  rewrite (GetPrefSize_with_grid S super aBox aSize grid index Hg Hc Hmax).
  rewrite (GetMaxSize_with_grid S super aBox aSize grid index Hg Hc Hmax).
  rewrite (GetMinSize_with_grid S super aBox aSize grid index Hg Hc Hmax).
  repeat split.
  intros s1 s2 He H1 H2 base Hb Hs1 Hs2 Hsum. cbn [snd].
  unfold extraColumnSizes. fold isRow columns extra. rewrite He.
  assert (seqZ (columns - 2) 2 = [columns - 2; columns - 1]) as ->
    by (unfold seqZ; simpl; repeat (f_equal; try lia)).
  cbn [map]. rewrite H1, H2.
  apply foldSizes_two; assumption.
Qed.

Lemma GetSize_folds_extra_columns_witness :
  GetPrefSize Sample.NS_INTRINSICSIZE Sample.inGrid Sample.three (mkSize 30 40)
    = (NS_OK, mkSize 55 40)
  /\ GetMaxSize Sample.NS_INTRINSICSIZE Sample.inGrid Sample.three (mkSize 30 40)
    = (NS_OK, mkSize 280 40)
  /\ GetMinSize Sample.NS_INTRINSICSIZE Sample.inGrid Sample.three (mkSize 30 40)
    = (NS_OK, mkSize 33 40)
  /\ width (GetPrefSize Sample.NS_INTRINSICSIZE Sample.inGrid Sample.three
              (mkSize 30 40)).2 = 30 + 25.
Proof.
  pose proof (GetSize_folds_extra_columns Sample.NS_INTRINSICSIZE Sample.inGrid
                Sample.three (mkSize 30 40) Sample.grid 1 eq_refl) as H.
  cbv zeta in H.
  destruct H as (Hp & Hx & Hn & H25); [simpl; lia | simpl; unfold PR_INT32_MAX; lia |].
  split; [rewrite Hp; reflexivity|]. split; [rewrite Hx; reflexivity|].
  split; [rewrite Hn; reflexivity|].
  refine (H25 10 15 eq_refl eq_refl eq_refl _ _ _ _);
    intros E; vm_compute in E; discriminate E.
Defined.

(** The scenario of C2 with a base size ten below the intrinsic size:
    the first extra column makes the size intrinsic and the second is
    not added. *)
Example GetPrefSize_ten_below_intrinsic :
  GetPrefSize Sample.NS_INTRINSICSIZE Sample.inGrid Sample.three
    (mkSize 1073741814 40)
  = (NS_OK, mkSize 1073741824 40).
Proof. reflexivity. Qed.

(** C2 as it is stated fails: with two extra columns of preferred sizes
    10 and 15, [GetPrefSize] does not add 25 to every finite size of
    the base class. *)
Lemma GetPrefSize_scenario_not_always_25 :
  ~ (forall (super : nsGridRowLayout) (aBox : Box) (aSize : nsSize)
            (grid : nsGrid) (index : Z),
        GetGrid super aBox = Some (grid, index) ->
        let isRow := IsHorizontal super aBox in
        GetColumnCount grid isRow = 5 ->
        GetExtraColumnCount grid isRow = 2 ->
        GetPrefRowHeight grid 3 (negb isRow) = 10 ->
        GetPrefRowHeight grid 4 (negb isRow) = 15 ->
        let base := GET_WIDTH (nsGridRowLayout_GetPrefSize super aBox aSize).2 isRow in
        base <> Sample.NS_INTRINSICSIZE ->
        GET_WIDTH (GetPrefSize Sample.NS_INTRINSICSIZE super aBox aSize).2 isRow
          = base + 25).
Proof.
  intros H.
  specialize (H Sample.inGrid Sample.three (mkSize 1073741814 40) Sample.grid 1
                eq_refl eq_refl eq_refl eq_refl eq_refl).
  cbv zeta in H. rewrite GetPrefSize_ten_below_intrinsic in H.
  simpl in H. unfold Sample.NS_INTRINSICSIZE in H. lia.
Qed.

(** ** The traversals *)

Section TraversalFacts.

Variable vtable : nat -> nsIGridPart.

(** *** The code, one step at a time *)

Lemma withDeepChild_eq {A} child (k : Box -> Result A) :
  withDeepChild child k =
  match CheckForScrollFrame child with
  | Some deepChild => k deepChild
  | None => Crash NullDeref
  end.
Proof. apply unwrapThen_CheckForScrollFrame. Qed.

Lemma DirtyRows_in_eq aBox dirty :
  DirtyRows_in vtable aBox dirty
  = DirtyRows_children (monument_DirtyRows vtable)
      (GetChildBoxes aBox) (MarkDirty aBox dirty).
Proof. destruct aBox; reflexivity. Qed.

Lemma CountRowsColumns_in_eq aBox r c :
  CountRowsColumns_in vtable aBox r c
  = CountRowsColumns_children (monument_CountRowsColumns vtable)
      (GetChildBoxes aBox) r c.
Proof. destruct aBox; reflexivity. Qed.

Lemma BuildRows_in_eq aBox aRows mem :
  BuildRows_in vtable aBox aRows mem
  = BuildRows_children (monument_BuildRows vtable) aRows
      (GetChildBoxes aBox) mem 0.
Proof. destruct aBox; reflexivity. Qed.

Lemma DirtyRows_children_cons f ch next dirty :
  DirtyRows_children f (ch :: next) dirty
  = match CheckForScrollFrame ch with
    | Some deepChild =>
        match monumentOf deepChild with
        | Some monument =>
            f monument deepChild dirty ≫= DirtyRows_children f next
        | None => DirtyRows_children f next dirty
        end
    | None => Crash NullDeref
    end.
Proof. cbn [DirtyRows_children]. apply withDeepChild_eq. Qed.

Lemma CountRowsColumns_children_cons f ch next r c :
  CountRowsColumns_children f (ch :: next) r c
  = match CheckForScrollFrame ch with
    | Some deepChild =>
        match monumentOf deepChild with
        | Some monument =>
            counts ← f monument deepChild r c;
            CountRowsColumns_children f next counts.1 counts.2
        | None => CountRowsColumns_children f next (add32 r 1) c
        end
    | None => Crash NullDeref
    end.
Proof. cbn [CountRowsColumns_children]. apply withDeepChild_eq. Qed.

Lemma BuildRows_children_cons f aRows ch next mem rowCount :
  BuildRows_children f aRows (ch :: next) mem rowCount
  = match CheckForScrollFrame ch with
    | Some deepChild =>
        match monumentOf deepChild with
        | Some monument =>
            built ← f monument deepChild (aRows + rowCount) mem;
            BuildRows_children f aRows next built.1 (add32 rowCount built.2)
        | None =>
            mem' ← store mem (aRows + rowCount) (Init ch true);
            BuildRows_children f aRows next mem' (add32 rowCount 1)
        end
    | None => Crash NullDeref
    end.
Proof. cbn [BuildRows_children]. apply withDeepChild_eq. Qed.

(** *** The reference definitions, one step at a time *)

Lemma scrollsResolved_eq box :
  scrollsResolved box
  = forallb (childResolved scrollsResolved) (GetChildBoxes box).
Proof. destruct box; reflexivity. Qed.

Lemma logicalRows_eq box :
  logicalRows vtable box
  = flat_map (childRows vtable (logicalRows vtable)) (GetChildBoxes box).
Proof. destruct box; reflexivity. Qed.

Lemma computedColumns_eq box c :
  computedColumns vtable box c
  = foldl (childColumns vtable (computedColumns vtable)) c (GetChildBoxes box).
Proof. destruct box; reflexivity. Qed.

Lemma dirtySet_eq box :
  dirtySet vtable box
  = {[ mAddr box ]} ∪ ⋃ (map (childDirty vtable (dirtySet vtable)) (GetChildBoxes box)).
Proof. destruct box; reflexivity. Qed.

(** *** Dirty propagation *)

Lemma DirtyRows_children_spec kids :
  (forall child eff, child ∈ kids -> CheckForScrollFrame child = Some eff ->
     forall dirty,
       DirtyRows_in vtable eff dirty
       = if scrollsResolved eff then Ok (dirty ∪ dirtySet vtable eff)
         else Crash NullDeref) ->
  forall dirty,
    DirtyRows_children (monument_DirtyRows vtable) kids dirty
    = if forallb (childResolved scrollsResolved) kids
      then Ok (dirty ∪ ⋃ (map (childDirty vtable (dirtySet vtable)) kids))
      else Crash NullDeref.
Proof.
  induction kids as [|ch next IH]; intros Hrec dirty.
  - simpl. f_equal. set_solver.
  - rewrite DirtyRows_children_cons. cbn [forallb map union_list foldr].
    unfold childResolved at 1, childDirty at 1.
    rewrite !unwrapThen_CheckForScrollFrame.
    assert (Hnext : forall child eff, child ∈ next ->
              CheckForScrollFrame child = Some eff ->
              forall dirty,
                DirtyRows_in vtable eff dirty
                = if scrollsResolved eff then Ok (dirty ∪ dirtySet vtable eff)
                  else Crash NullDeref)
      by (intros child eff Hin; apply Hrec; right; exact Hin).
    destruct (CheckForScrollFrame ch) as [d|] eqn:E; [|reflexivity].
    destruct (monumentOf d) as [[|impl]|] eqn:M; cbn [monument_DirtyRows].
    + rewrite (Hrec ch d (list_elem_of_here _ _) E).
      destruct (scrollsResolved d); [|reflexivity].
      cbn [mbind Result_bind andb]. rewrite (IH Hnext).
      destruct (forallb _ next); [|reflexivity]. f_equal. set_solver.
    + cbn [mbind Result_bind andb]. rewrite (IH Hnext).
      destruct (forallb _ next); [|reflexivity].
      unfold part_DirtyRows. f_equal. set_solver.
    + cbn [andb]. rewrite (IH Hnext).
      destruct (forallb _ next); [|reflexivity]. f_equal. set_solver.
Qed.

Lemma DirtyRows_in_spec box :
  forall dirty,
    DirtyRows_in vtable box dirty
    = if scrollsResolved box then Ok (dirty ∪ dirtySet vtable box)
      else Crash NullDeref.
Proof.
  induction box as [box IH] using Box_effective_ind. intros dirty.
  rewrite DirtyRows_in_eq, (DirtyRows_children_spec _ IH).
  rewrite scrollsResolved_eq, dirtySet_eq.
  destruct (forallb _ _); [|reflexivity].
  unfold MarkDirty. f_equal. set_solver.
Qed.

(** *** Counting *)

Definition CountRowsColumns_is (box : Box) : Prop :=
  forall r c, int32 r ->
    CountRowsColumns_in vtable box r c
    = if scrollsResolved box
      then Ok (wrap32 (r + Z.of_nat (length (logicalRows vtable box))),
               computedColumns vtable box c)
      else Crash NullDeref.

Lemma wrap32_rows r (l1 l2 : list nsGridRow) :
  wrap32 (wrap32 (r + Z.of_nat (length l1)) + Z.of_nat (length l2))
  = wrap32 (r + Z.of_nat (length (l1 ++ l2))).
Proof. rewrite wrap32_add_l, length_app. f_equal. lia. Qed.

Lemma wrap32_row r (row : nsGridRow) (l : list nsGridRow) :
  wrap32 (wrap32 (r + 1) + Z.of_nat (length l))
  = wrap32 (r + Z.of_nat (length (row :: l))).
Proof. rewrite wrap32_add_l. f_equal. cbn [length]. lia. Qed.

Lemma CountRowsColumns_children_spec kids :
  (forall child eff, child ∈ kids -> CheckForScrollFrame child = Some eff ->
     CountRowsColumns_is eff) ->
  forall r c, int32 r ->
    CountRowsColumns_children (monument_CountRowsColumns vtable) kids r c
    = if forallb (childResolved scrollsResolved) kids
      then Ok (wrap32 (r + Z.of_nat (length
                    (flat_map (childRows vtable (logicalRows vtable)) kids))),
               foldl (childColumns vtable (computedColumns vtable)) c kids)
      else Crash NullDeref.
Proof.
  induction kids as [|ch next IH]; intros Hrec r c Hr.
  - simpl. rewrite Z.add_0_r, wrap32_int32 by exact Hr. reflexivity.
  - rewrite CountRowsColumns_children_cons. cbn [forallb flat_map foldl].
    unfold childResolved at 1, childRows at 1, childColumns at 2.
    rewrite !unwrapThen_CheckForScrollFrame.
    assert (Hnext : forall child eff, child ∈ next ->
              CheckForScrollFrame child = Some eff -> CountRowsColumns_is eff)
      by (intros child eff Hin; apply Hrec; right; exact Hin).
    destruct (CheckForScrollFrame ch) as [d|] eqn:E; [|reflexivity].
    destruct (monumentOf d) as [[|impl]|] eqn:M; cbn [monument_CountRowsColumns].
    + rewrite (Hrec ch d (list_elem_of_here _ _) E r c Hr).
      destruct (scrollsResolved d); [|reflexivity].
      cbn [mbind Result_bind andb fst snd].
      rewrite (IH Hnext) by apply int32_wrap32.
      destruct (forallb _ next); [|reflexivity].
      rewrite wrap32_rows. reflexivity.
    + cbn [mbind Result_bind andb fst snd part_CountRowsColumns].
      unfold add32. rewrite (IH Hnext) by apply int32_wrap32.
      destruct (forallb _ next); [|reflexivity].
      rewrite wrap32_rows. reflexivity.
    + cbn [andb]. unfold add32. rewrite (IH Hnext) by apply int32_wrap32.
      destruct (forallb _ next); [|reflexivity].
      cbn [app]. rewrite (wrap32_row r (mkRow (Some (mAddr ch)) true)). reflexivity.
Qed.

Lemma CountRowsColumns_in_spec box : CountRowsColumns_is box.
Proof.
  induction box as [box IH] using Box_effective_ind. intros r c Hr.
  rewrite CountRowsColumns_in_eq, (CountRowsColumns_children_spec _ IH) by exact Hr.
  rewrite scrollsResolved_eq, logicalRows_eq, computedColumns_eq. reflexivity.
Qed.

(** *** The row buffer *)

Lemma splice_length mem i rows :
  (i + length rows <= length mem)%nat -> length (splice mem i rows) = length mem.
Proof.
  intros H. unfold splice.
  rewrite !length_app, length_take, length_drop. lia.
Qed.

Lemma splice_nil mem i : splice mem i [] = mem.
Proof. unfold splice. simpl. rewrite Nat.add_0_r. apply take_drop. Qed.

Lemma splice_splice mem i r1 r2 :
  (i + length r1 + length r2 <= length mem)%nat ->
  splice (splice mem i r1) (i + length r1) r2 = splice mem i (r1 ++ r2).
Proof.
  intros H. unfold splice.
  assert (Ht : length (take i mem) = i) by (rewrite length_take; lia).
  rewrite (app_assoc (take i mem) r1).
  rewrite take_app_length' by (rewrite length_app; lia).
  rewrite drop_app_ge by (rewrite length_app; lia).
  rewrite length_app, Ht.
  replace (i + length r1 + length r2 - (i + length r1))%nat with (length r2) by lia.
  rewrite drop_drop, length_app, <- !app_assoc.
  rewrite Nat.add_assoc. reflexivity.
Qed.

Lemma store_splice mem i row :
  0 <= i < Z.of_nat (length mem) ->
  store mem i row = Ok (splice mem (Z.to_nat i) [row]).
Proof.
  intros H. unfold store.
  assert ((0 <=? i) && (i <? Z.of_nat (length mem)) = true) as ->
    by (apply andb_true_iff; split; [apply Z.leb_le | apply Z.ltb_lt]; lia).
  f_equal. unfold splice. rewrite insert_take_drop by lia.
  cbn [app length]. do 3 f_equal. lia.
Qed.

Lemma storeRows_splice rows : forall mem i,
  0 <= i -> i + Z.of_nat (length rows) <= Z.of_nat (length mem) ->
  storeRows mem i rows = Ok (splice mem (Z.to_nat i) rows).
Proof.
  induction rows as [|row rows IH]; intros mem i Hi Hlen; cbn [storeRows].
  - rewrite splice_nil. reflexivity.
  - cbn [length] in Hlen. rewrite store_splice by lia.
    cbn [mbind Result_bind]. rewrite IH.
    + f_equal. replace (Z.to_nat (i + 1)) with (Z.to_nat i + length [row])%nat
        by (cbn [length]; lia).
      rewrite splice_splice by (cbn [length]; lia). reflexivity.
    + lia.
    + rewrite splice_length by (cbn [length]; lia). lia.
Qed.

(** *** Building *)

Definition BuildRows_is (box : Box) : Prop :=
  forall aRows mem,
    scrollsResolved box = true ->
    0 <= aRows ->
    Z.of_nat (length (logicalRows vtable box)) <= PR_INT32_MAX ->
    aRows + Z.of_nat (length (logicalRows vtable box)) <= Z.of_nat (length mem) ->
    BuildRows_in vtable box aRows mem
    = Ok (splice mem (Z.to_nat aRows) (logicalRows vtable box),
          Z.of_nat (length (logicalRows vtable box))).

(** One child has written its rows [r1] and the loop goes on with the
    rows [r2] of the others. *)
Lemma splice_next mem aRows rowCount (r1 r2 : list nsGridRow) :
  0 <= aRows -> 0 <= rowCount ->
  aRows + rowCount + Z.of_nat (length (r1 ++ r2)) <= Z.of_nat (length mem) ->
  splice (splice mem (Z.to_nat (aRows + rowCount)) r1)
         (Z.to_nat (aRows + (rowCount + Z.of_nat (length r1)))) r2
  = splice mem (Z.to_nat (aRows + rowCount)) (r1 ++ r2).
Proof.
  intros Ha Hr Hlen. rewrite length_app in Hlen.
  replace (Z.to_nat (aRows + (rowCount + Z.of_nat (length r1))))
    with (Z.to_nat (aRows + rowCount) + length r1)%nat by lia.
  apply splice_splice. lia.
Qed.

Lemma BuildRows_children_spec aRows kids :
  (forall child eff, child ∈ kids -> CheckForScrollFrame child = Some eff ->
     BuildRows_is eff) ->
  forall mem rowCount,
    let rows := flat_map (childRows vtable (logicalRows vtable)) kids in
    forallb (childResolved scrollsResolved) kids = true ->
    0 <= aRows -> 0 <= rowCount ->
    rowCount + Z.of_nat (length rows) <= PR_INT32_MAX ->
    aRows + rowCount + Z.of_nat (length rows) <= Z.of_nat (length mem) ->
    BuildRows_children (monument_BuildRows vtable) aRows kids mem rowCount
    = Ok (splice mem (Z.to_nat (aRows + rowCount)) rows,
          rowCount + Z.of_nat (length rows)).
Proof.
  induction kids as [|ch next IH]; intros Hrec mem rowCount rows Hres Ha Hr Hmax Hlen;
    subst rows.
  - simpl. rewrite splice_nil, Z.add_0_r. reflexivity.
  - rewrite BuildRows_children_cons.
    cbn [forallb flat_map] in *.
    set (rest := flat_map (childRows vtable (logicalRows vtable)) next) in *.
    unfold childResolved at 1 in Hres. unfold childRows in Hmax, Hlen |- *.
    rewrite unwrapThen_CheckForScrollFrame in Hres.
    rewrite unwrapThen_CheckForScrollFrame in Hmax.
    rewrite unwrapThen_CheckForScrollFrame in Hlen.
    rewrite unwrapThen_CheckForScrollFrame.
    assert (Hnext : forall child eff, child ∈ next ->
              CheckForScrollFrame child = Some eff -> BuildRows_is eff)
      by (intros child eff Hin; apply Hrec; right; exact Hin).
    destruct (CheckForScrollFrame ch) as [d|] eqn:E; [|discriminate Hres].
    apply andb_true_iff in Hres as [Hd Hres].
    pose proof Hlen as Hlen'. pose proof Hmax as Hmax'.
    rewrite length_app in Hlen', Hmax'.
    assert (Hint : forall n : nat, (n <= length
                (match monumentOf d with
                 | Some RowGroupPart => logicalRows vtable d
                 | Some (OtherPart impl) => part_rows (vtable impl) d
                 | None => [ {| mBox := Some (mAddr ch); mIsBogus := true |} ]
                 end))%nat -> add32 rowCount (Z.of_nat n) = rowCount + Z.of_nat n).
    { intros n Hn. apply add32_int32.
      unfold int32, PR_INT32_MIN, PR_INT32_MAX in *. lia. }
    destruct (monumentOf d) as [[|impl]|] eqn:M; cbn [monument_BuildRows].
    + rewrite (Hrec ch d (list_elem_of_here _ _) E) by (try assumption; lia).
      cbn [mbind Result_bind fst snd]. rewrite Hint by lia.
      rewrite (IH Hnext); try assumption; try lia.
      * rewrite splice_next by assumption. rewrite length_app. f_equal. f_equal. lia.
      * rewrite splice_length by lia. lia.
    + unfold part_BuildRows. rewrite storeRows_splice by lia.
      cbn [mbind Result_bind fst snd].
      rewrite wrap32_int32 by (unfold int32, PR_INT32_MIN, PR_INT32_MAX in *; lia).
      rewrite Hint by lia.
      rewrite (IH Hnext); try assumption; try lia.
      * rewrite splice_next by assumption. rewrite length_app. f_equal. f_equal. lia.
      * rewrite splice_length by lia. lia.
    + cbn [length] in Hlen', Hmax'.
      rewrite store_splice by lia. cbn [mbind Result_bind].
      assert (add32 rowCount 1 = rowCount + Z.of_nat (length [Init ch true])) as ->
        by (apply (Hint 1%nat); cbn [length]; lia).
      rewrite (IH Hnext); try assumption; try (cbn [length]; lia).
      * rewrite splice_next by assumption. rewrite length_app. f_equal. f_equal. cbn [length]. lia.
      * rewrite splice_length by (cbn [length]; lia). cbn [length]. lia.
Qed.

Lemma BuildRows_in_spec box : BuildRows_is box.
Proof.
  induction box as [box IH] using Box_effective_ind.
  intros aRows mem Hres Ha Hmax Hlen.
  rewrite BuildRows_in_eq.
  rewrite scrollsResolved_eq in Hres. rewrite logicalRows_eq in *.
  rewrite (BuildRows_children_spec aRows _ IH mem 0) by (try assumption; lia).
  rewrite Z.add_0_r, Z.add_0_l. reflexivity.
Qed.

(** *** Children that are no monuments, and children in another order *)

Lemma childResolved_permutation kids kids' :
  kids ≡ₚ kids' ->
  forallb (childResolved scrollsResolved) kids
  = forallb (childResolved scrollsResolved) kids'.
Proof.
  induction 1 as [|x l l' _ IH|x y l|l l' l'' _ IH1 _ IH2]; cbn [forallb].
  - reflexivity.
  - rewrite IH. reflexivity.
  - destruct (childResolved _ x), (childResolved _ y); reflexivity.
  - rewrite IH1. exact IH2.
Qed.

Lemma childDirty_permutation kids kids' :
  kids ≡ₚ kids' ->
  ⋃ (map (childDirty vtable (dirtySet vtable)) kids)
  = ⋃ (map (childDirty vtable (dirtySet vtable)) kids').
Proof.
  induction 1 as [|x l l' _ IH|x y l|l l' l'' _ IH1 _ IH2];
    cbn [map union_list foldr].
  - reflexivity.
  - rewrite IH. reflexivity.
  - set_solver.
  - rewrite IH1. exact IH2.
Qed.

Lemma childDirty_bogus child :
  isMonument child = false -> childDirty vtable (dirtySet vtable) child = ∅.
Proof.
  unfold isMonument, childDirty. rewrite !unwrapThen_CheckForScrollFrame.
  destruct (CheckForScrollFrame child) as [d|]; [|reflexivity].
  destruct (monumentOf d) as [[|impl]|]; intros H; try discriminate H; reflexivity.
Qed.

Lemma childRows_bogus child :
  childResolved scrollsResolved child = true -> isMonument child = false ->
  childRows vtable (logicalRows vtable) child = [Init child true].
Proof.
  unfold childResolved, isMonument, childRows.
  rewrite !unwrapThen_CheckForScrollFrame.
  destruct (CheckForScrollFrame child) as [d|]; [|discriminate 1].
  destruct (monumentOf d) as [[|impl]|]; intros _ H; try discriminate H; reflexivity.
Qed.

Lemma childColumns_bogus child c :
  isMonument child = false ->
  childColumns vtable (computedColumns vtable) c child = c.
Proof.
  unfold isMonument, childColumns. rewrite !unwrapThen_CheckForScrollFrame.
  destruct (CheckForScrollFrame child) as [d|]; [|reflexivity].
  destruct (monumentOf d) as [[|impl]|]; intros H; try discriminate H; reflexivity.
Qed.

Lemma no_monument_children kids c :
  forallb (childResolved scrollsResolved) kids = true ->
  forallb (fun child => negb (isMonument child)) kids = true ->
  flat_map (childRows vtable (logicalRows vtable)) kids
    = map (fun child => Init child true) kids
  /\ foldl (childColumns vtable (computedColumns vtable)) c kids = c.
Proof.
  induction kids as [|ch next IH]; cbn [forallb flat_map map foldl]; [tauto|].
  intros [Hr Hrs]%andb_true_iff [Hm Hms]%andb_true_iff.
  apply negb_true_iff in Hm.
  rewrite childRows_bogus, childColumns_bogus by assumption.
  destruct (IH Hrs Hms) as [-> ->]. split; reflexivity.
Qed.

Lemma onlyRowGroups_eq box :
  onlyRowGroups box = forallb (childOnlyRowGroups onlyRowGroups) (GetChildBoxes box).
Proof. destruct box; reflexivity. Qed.

(** Only the grid parts of other classes write the computed column
    count. *)
Lemma computedColumns_onlyRowGroups box :
  onlyRowGroups box = true -> forall c, computedColumns vtable box c = c.
Proof.
  induction box as [box IH] using Box_effective_ind. intros Honly c.
  rewrite computedColumns_eq. rewrite onlyRowGroups_eq in Honly.
  induction (GetChildBoxes box) as [|ch next IHk]; cbn [foldl]; [reflexivity|].
  cbn [forallb] in Honly. apply andb_true_iff in Honly as [Hch Hnext].
  assert (Hc : childColumns vtable (computedColumns vtable) c ch = c).
  { unfold childColumns. unfold childOnlyRowGroups in Hch.
    rewrite unwrapThen_CheckForScrollFrame in Hch.
    rewrite unwrapThen_CheckForScrollFrame.
    destruct (CheckForScrollFrame ch) as [d|] eqn:E; [|reflexivity].
    destruct (monumentOf d) as [[|impl]|]; try discriminate Hch; [|reflexivity].
    apply (IH ch d (list_elem_of_here _ _) E Hch). }
  rewrite Hc. apply IHk; [|exact Hnext].
  intros child eff Hin. apply IH. right. exact Hin.
Qed.

(** A child that does not resolve stops the counting and the dirty
    propagation on the call through [nsnull]. *)
Corollary unresolved_child_crashes box r c dirty :
  int32 r -> scrollsResolved box = false ->
  CountRowsColumns vtable (Some box) r c = Crash NullDeref
  /\ DirtyRows vtable (Some box) dirty = Crash NullDeref.
Proof.
  intros Hr H. unfold CountRowsColumns, DirtyRows.
  rewrite (CountRowsColumns_in_spec box r c Hr), DirtyRows_in_spec, H.
  split; reflexivity.
Qed.

End TraversalFacts.

(** ** The claims about the traversals *)

(** C9.  With [nsnull] for the box the three traversals return [NS_OK]
    and change nothing: no box is marked, the two counters are as they
    were, the count written is zero and the buffer is as it was. *)
Theorem null_box_changes_nothing :
  forall (vtable : nat -> nsIGridPart) (dirty : gset nat)
         (aRowCount aComputedColumnCount aRows : Z) (mem : list nsGridRow),
    DirtyRows vtable None dirty = Ok (NS_OK, dirty)
    /\ CountRowsColumns vtable None aRowCount aComputedColumnCount
       = Ok (NS_OK, (aRowCount, aComputedColumnCount))
    /\ BuildRows vtable None aRows mem = Ok (NS_OK, (mem, 0)).
Proof.
  intros vtable dirty aRowCount aComputedColumnCount aRows mem.
  unfold DirtyRows, CountRowsColumns, BuildRows. auto.
Qed.

(** C10.  [CountRowsColumns] adds to the counters it is given.  When
    the children resolve, the row count it leaves is the one it was
    given plus the number of logical rows of the box, a sum of
    [PRInt32], and that number exactly when the sum is a [PRInt32]; the
    computed column count is what the monuments among the children make
    of it, so that without a monument among the children it is the one
    supplied and every child counts for one row; row groups nested in
    row groups do not change it either. *)
Theorem CountRowsColumns_accumulates :
  forall (vtable : nat -> nsIGridPart) (box : Box)
         (aRowCount aComputedColumnCount : Z),
    int32 aRowCount ->
    scrollsResolved box = true ->
    let found := Z.of_nat (length (logicalRows vtable box)) in
    CountRowsColumns vtable (Some box) aRowCount aComputedColumnCount
      = Ok (NS_OK, (add32 aRowCount found,
                    computedColumns vtable box aComputedColumnCount))
    /\ (int32 (aRowCount + found) ->
          CountRowsColumns vtable (Some box) aRowCount aComputedColumnCount
          = Ok (NS_OK, (aRowCount + found,
                        computedColumns vtable box aComputedColumnCount)))
    /\ (forallb (fun child => negb (isMonument child)) (GetChildBoxes box) = true ->
          computedColumns vtable box aComputedColumnCount = aComputedColumnCount
          /\ found = Z.of_nat (length (GetChildBoxes box)))
    /\ (onlyRowGroups box = true ->
          computedColumns vtable box aComputedColumnCount = aComputedColumnCount).
Proof.
  intros vtable box r c Hr Hres found. subst found.
  assert (Hrun : CountRowsColumns vtable (Some box) r c
            = Ok (NS_OK, (add32 r (Z.of_nat (length (logicalRows vtable box))),
                          computedColumns vtable box c))).
  { unfold CountRowsColumns.
    rewrite (CountRowsColumns_in_spec vtable box r c Hr), Hres. reflexivity. }
  repeat split.
  - exact Hrun.
  - intros Hsum. rewrite Hrun, add32_int32 by exact Hsum. reflexivity.
  - rewrite computedColumns_eq.
    rewrite scrollsResolved_eq in Hres.
    apply (no_monument_children vtable _ c Hres H).
  - rewrite logicalRows_eq. rewrite scrollsResolved_eq in Hres.
    destruct (no_monument_children vtable _ c Hres H) as [-> _].
    rewrite length_map. reflexivity.
  - intros Honly. apply computedColumns_onlyRowGroups, Honly.
Qed.

Lemma CountRowsColumns_accumulates_witness :
  CountRowsColumns Sample.vtable (Some Sample.mixed) 7 1 = Ok (NS_OK, (11, 2))
  /\ CountRowsColumns Sample.vtable (Some Sample.three) 7 1 = Ok (NS_OK, (10, 1)).
Proof.
  assert (H7 : int32 7) by (unfold int32, PR_INT32_MIN, PR_INT32_MAX; lia).
  split.
  - exact (proj1 (CountRowsColumns_accumulates Sample.vtable Sample.mixed 7 1
                    H7 eq_refl)).
  - exact (proj1 (CountRowsColumns_accumulates Sample.vtable Sample.three 7 1
                    H7 eq_refl)).
Defined.

(** C5.  [BuildRows] writes the logical rows of the box in document
    order from the slot it is handed and reports their number, when the
    children resolve and the rows fit the buffer: the rows are those of
    the children one after the other, a child that is no monument gives
    the one generated row that refers to the child itself and not to
    the box it scrolls, and a child that is a row group gives the rows
    of that row group. *)
Theorem BuildRows_writes_rows_in_order :
  forall (vtable : nat -> nsIGridPart) (box : Box) (aRows : Z)
         (mem : list nsGridRow),
    scrollsResolved box = true ->
    0 <= aRows ->
    Z.of_nat (length (logicalRows vtable box)) <= PR_INT32_MAX ->
    aRows + Z.of_nat (length (logicalRows vtable box)) <= Z.of_nat (length mem) ->
    BuildRows vtable (Some box) aRows mem
      = Ok (NS_OK,
            (take (Z.to_nat aRows) mem ++ logicalRows vtable box
               ++ drop (Z.to_nat aRows + length (logicalRows vtable box)) mem,
             Z.of_nat (length (logicalRows vtable box))))
    /\ logicalRows vtable box
       = flat_map (childRows vtable (logicalRows vtable)) (GetChildBoxes box)
    /\ (forall child, child ∈ GetChildBoxes box -> isMonument child = false ->
          childRows vtable (logicalRows vtable) child
          = [ {| mBox := Some (mAddr child); mIsBogus := true |} ])
    /\ (forall child deepChild, child ∈ GetChildBoxes box ->
          CheckForScrollFrame child = Some deepChild ->
          monumentOf deepChild = Some RowGroupPart ->
          childRows vtable (logicalRows vtable) child
          = logicalRows vtable deepChild).
Proof.
  intros vtable box aRows mem Hres Ha Hmax Hlen. repeat split.
  - unfold BuildRows.
    rewrite (BuildRows_in_spec vtable box aRows mem Hres Ha Hmax Hlen).
    reflexivity.
  - apply logicalRows_eq.
  - intros child Hin Hm. apply childRows_bogus; [|exact Hm].
    rewrite scrollsResolved_eq, forallb_forall in Hres.
    apply Hres, list_elem_of_In, Hin.
  - intros child d _ E M. unfold childRows.
    rewrite unwrapThen_CheckForScrollFrame, E, M. reflexivity.
Qed.

Lemma BuildRows_writes_rows_in_order_witness :
  BuildRows Sample.vtable (Some Sample.mixed) 1 (blankRows 6)
  = Ok (NS_OK,
        ([ blankRow;
           {| mBox := Some 13%nat; mIsBogus := true |};
           {| mBox := Some 14%nat; mIsBogus := false |};
           {| mBox := Some 17%nat; mIsBogus := false |};
           {| mBox := Some 19%nat; mIsBogus := true |};
           blankRow ], 4)).
Proof.
  refine (proj1 (BuildRows_writes_rows_in_order Sample.vtable Sample.mixed 1
                   (blankRows 6) eq_refl _ _ _)).
  - lia.
  - unfold PR_INT32_MAX. simpl. lia.
  - simpl. lia.
Defined.

(** C1.  When [CountRowsColumns], started with a row count of zero,
    leaves the row count [n] for a box whose logical rows are no more
    than a [PRInt32] holds, [BuildRows] on the same box with a buffer
    of [n] rows fills the buffer with the logical rows of the box and
    reports [n] rows written. *)
Theorem count_build_consistency :
  forall (vtable : nat -> nsIGridPart) (box : Box)
         (aComputedColumnCount n columns : Z),
    CountRowsColumns vtable (Some box) 0 aComputedColumnCount
      = Ok (NS_OK, (n, columns)) ->
    Z.of_nat (length (logicalRows vtable box)) <= PR_INT32_MAX ->
    BuildRows vtable (Some box) 0 (blankRows n)
      = Ok (NS_OK, (logicalRows vtable box, n)).
Proof.
  intros vtable box c n columns Hcount Hmax.
  assert (H0 : int32 0) by (unfold int32, PR_INT32_MIN, PR_INT32_MAX; lia).
  unfold CountRowsColumns in Hcount.
  rewrite (CountRowsColumns_in_spec vtable box 0 c H0) in Hcount.
  destruct (scrollsResolved box) eqn:Hres; [|discriminate Hcount].
  cbn [mbind Result_bind] in Hcount.
  injection Hcount as Hn _. rewrite Z.add_0_l in Hn.
  rewrite wrap32_int32 in Hn
    by (unfold int32, PR_INT32_MIN, PR_INT32_MAX in *; lia).
  subst n.
  assert (Hlen : length (blankRows (Z.of_nat (length (logicalRows vtable box))))
                 = length (logicalRows vtable box))
    by (unfold blankRows; rewrite length_replicate; lia).
  unfold BuildRows.
  rewrite (BuildRows_in_spec vtable box 0 _ Hres (Z.le_refl 0) Hmax)
    by (rewrite Hlen; lia).
  unfold splice. change (Z.to_nat 0) with 0%nat. cbn [take Nat.add app].
  rewrite drop_ge by (rewrite Hlen; lia).
  rewrite app_nil_r. reflexivity.
Qed.

Lemma count_build_consistency_witness :
  CountRowsColumns Sample.vtable (Some Sample.mixed) 0 0 = Ok (NS_OK, (4, 2))
  /\ BuildRows Sample.vtable (Some Sample.mixed) 0 (blankRows 4)
     = Ok (NS_OK,
           ([ {| mBox := Some 13%nat; mIsBogus := true |};
              {| mBox := Some 14%nat; mIsBogus := false |};
              {| mBox := Some 17%nat; mIsBogus := false |};
              {| mBox := Some 19%nat; mIsBogus := true |} ], 4)).
Proof.
  split; [reflexivity|].
  refine (count_build_consistency Sample.vtable Sample.mixed 0 4 2 eq_refl _).
  unfold PR_INT32_MAX. simpl. lia.
Defined.

(** C7.  [DirtyRows] marks the box and hands the request on to the
    children that are monuments once scroll frames are unwrapped: when
    the children resolve, the boxes marked are those marked before, the
    box, and what each monument among the children marks; a child that
    is no monument adds nothing; and the children in any other order
    give the same result. *)
Theorem DirtyRows_marks_box_and_monuments :
  forall (vtable : nat -> nsIGridPart) (box : Box) (dirty : gset nat),
    DirtyRows vtable (Some box) dirty
      = (if scrollsResolved box
         then Ok (NS_OK, dirty ∪ dirtySet vtable box)
         else Crash NullDeref)
    /\ dirtySet vtable box
       = {[ mAddr box ]}
         ∪ ⋃ (map (childDirty vtable (dirtySet vtable)) (GetChildBoxes box))
    /\ (forall child deepChild,
          CheckForScrollFrame child = Some deepChild ->
          childDirty vtable (dirtySet vtable) child
          = match monumentOf deepChild with
            | Some RowGroupPart => dirtySet vtable deepChild
            | Some (OtherPart impl) => part_dirty (vtable impl) deepChild
            | None => ∅
            end)
    /\ (forallb (fun child => negb (isMonument child)) (GetChildBoxes box) = true ->
          dirtySet vtable box = {[ mAddr box ]})
    /\ (forall kids, kids ≡ₚ GetChildBoxes box ->
          DirtyRows vtable (Some (withChildren box kids)) dirty
          = DirtyRows vtable (Some box) dirty).
Proof.
  intros vtable box dirty.
  assert (Hrun : forall b, DirtyRows vtable (Some b) dirty
            = if scrollsResolved b then Ok (NS_OK, dirty ∪ dirtySet vtable b)
              else Crash NullDeref).
  { intros b. unfold DirtyRows. rewrite DirtyRows_in_spec.
    destruct (scrollsResolved b); reflexivity. }
  split; [apply Hrun|]. split; [apply dirtySet_eq|]. split; [|split].
  - intros child d E. unfold childDirty.
    rewrite unwrapThen_CheckForScrollFrame, E. reflexivity.
  - intros Hno. rewrite dirtySet_eq.
    induction (GetChildBoxes box) as [|ch next IH]; cbn [map union_list foldr].
    + set_solver.
    + cbn [forallb] in Hno. apply andb_true_iff in Hno as [Hm Hno].
      apply negb_true_iff in Hm. rewrite (childDirty_bogus vtable ch Hm).
      specialize (IH Hno). set_solver.
  - intros kids Hperm. rewrite !Hrun.
    rewrite (scrollsResolved_eq (withChildren box kids)), (scrollsResolved_eq box).
    rewrite (dirtySet_eq vtable (withChildren box kids)), (dirtySet_eq vtable box).
    destruct box as [a sc l ks]. cbn [withChildren GetChildBoxes mAddr] in *.
    rewrite (childResolved_permutation _ _ Hperm).
    rewrite (childDirty_permutation vtable _ _ Hperm). reflexivity.
Qed.

(** C6.  A row group with a child that is a scrollable frame without a
    scrolled box: each of the three traversals calls
    [GetLayoutManager] through the [nsnull] that [CheckForScrollFrame]
    returns for that child, and does not go on to the children after
    it. *)
Theorem scrollable_frame_without_box_crashes :
  CheckForScrollFrame (Sample.scroll 32 None) = None
  /\ CountRowsColumns Sample.vtable (Some Sample.broken) 0 0 = Crash NullDeref
  /\ BuildRows Sample.vtable (Some Sample.broken) 0 (blankRows 3) = Crash NullDeref
  /\ DirtyRows Sample.vtable (Some Sample.broken) ∅ = Crash NullDeref.
Proof.
  split; [reflexivity|]. split; [reflexivity|]. split; [reflexivity|].
  unfold DirtyRows. rewrite DirtyRows_in_spec. reflexivity.
Qed.


(** ** The scenarios of the specification *)

(** A row group with a nested row group of two plain boxes and a plain
    box of its own has three rows, built in document order. *)
Example nested_rows :
  CountRowsColumns Sample.vtable (Some Sample.nested) 0 0 = Ok (NS_OK, (3, 0))
  /\ BuildRows Sample.vtable (Some Sample.nested) 0 (blankRows 3)
     = Ok (NS_OK,
           ([ {| mBox := Some 3%nat; mIsBogus := true |};
              {| mBox := Some 4%nat; mIsBogus := true |};
              {| mBox := Some 5%nat; mIsBogus := true |} ], 3)).
Proof. split; reflexivity. Qed.

(** A buffer one row short is overrun. *)
Example nested_rows_short_buffer :
  BuildRows Sample.vtable (Some Sample.nested) 0 (blankRows 2) = Crash BufferOverrun.
Proof. reflexivity. Qed.

(** A dirty request marks the row group, the row group behind the
    scroll frame with the row in it, and the row, and neither the
    scroll frames nor the plain boxes. *)
Example mixed_dirty :
  dirtySet Sample.vtable Sample.mixed = {[ 10; 12; 14; 17 ]}%nat.
Proof. vm_compute. reflexivity. Qed.

(** * Further properties of the code *)

(** ** More sample grids *)

Module MoreSamples.

(** A grid of three columns without extra columns, and one that
    reports a negative number of them. *)
Definition plainGrid (extra : Z) : nsGrid :=
  {| GetColumnCount := fun _ => 3;
     GetExtraColumnCount := fun _ => extra;
     GetPrefRowHeight := fun _ _ => 11;
     GetMaxRowHeight := fun _ _ => 12;
     GetMinRowHeight := fun _ _ => 13 |}.

(** A base class that finds the given grid for every box, with vertical
    boxes, whose size queries leave the size they are passed and
    return different statuses. *)
Definition inside (grid : nsGrid) : nsGridRowLayout :=
  {| GetGrid := fun _ => Some (grid, 0);
     IsHorizontal := fun _ => false;
     nsGridRowLayout_GetPrefSize := fun _ sz => (NS_OK, sz);
     nsGridRowLayout_GetMaxSize := fun _ sz => (NS_ERROR 7, sz);
     nsGridRowLayout_GetMinSize := fun _ sz => (NS_OK, sz) |}.

(** The grid of [Sample.grid] with an intrinsic maximum size for the
    last extra column. *)
Definition stretchy : nsGrid :=
  {| GetColumnCount := fun _ => 5;
     GetExtraColumnCount := fun _ => 2;
     GetPrefRowHeight := Sample.extras 10 15;
     GetMaxRowHeight := Sample.extras 100 Sample.NS_INTRINSICSIZE;
     GetMinRowHeight := Sample.extras 1 2 |}.

End MoreSamples.

(** ** The size queries on any grid *)

Section QueryFacts.

Variable NS_INTRINSICSIZE : nscoord.

(** The loop of the size queries keeps the other axis, whatever the
    counts and the sizes of the grid are. *)
Lemma addExtraColumns_other_axis rowHeight isRow extraColumns start sz :
  GET_HEIGHT (addExtraColumns NS_INTRINSICSIZE rowHeight isRow extraColumns start sz)
    isRow = GET_HEIGHT sz isRow.
Proof.
  unfold addExtraColumns. generalize (seqZ 0 extraColumns). intros l. revert sz.
  induction l as [|i l IH]; intros sz; cbn [foldl]; [reflexivity|].
  rewrite IH. apply AddWidth_other_axis.
Qed.

(** An intrinsic size on the axis stays intrinsic through the loop. *)
Lemma addExtraColumns_intrinsic rowHeight isRow extraColumns start sz :
  GET_WIDTH sz isRow = NS_INTRINSICSIZE ->
  GET_WIDTH (addExtraColumns NS_INTRINSICSIZE rowHeight isRow extraColumns start sz)
    isRow = NS_INTRINSICSIZE.
Proof.
  unfold addExtraColumns. generalize (seqZ 0 extraColumns). intros l. revert sz.
  induction l as [|i l IH]; intros sz H; cbn [foldl]; [exact H|].
  apply IH. rewrite AddWidth_intrinsic by (left; exact H). apply GET_SET_WIDTH.
Qed.

(** The loop does not run for a count of zero or below. *)
Lemma addExtraColumns_none rowHeight isRow extraColumns start sz :
  extraColumns <= 0 ->
  addExtraColumns NS_INTRINSICSIZE rowHeight isRow extraColumns start sz = sz.
Proof. intros H. unfold addExtraColumns. rewrite seqZ_nil by exact H. reflexivity. Qed.

(** Sizes that are not negative and a sum that stays below the
    intrinsic size: the fold is the sum. *)
Lemma foldSizes_sum isRow sizes : forall sz,
  NS_INTRINSICSIZE <= PR_INT32_MAX ->
  0 <= GET_WIDTH sz isRow ->
  Forall (fun s => 0 <= s) sizes ->
  GET_WIDTH sz isRow + foldr Z.add 0 sizes < NS_INTRINSICSIZE ->
  GET_WIDTH (foldSizes NS_INTRINSICSIZE isRow sizes sz) isRow
  = GET_WIDTH sz isRow + foldr Z.add 0 sizes.
Proof.
  induction sizes as [|s sizes IH]; intros sz HS H0 Hpos Hsum.
  - cbn [foldSizes foldl foldr]. unfold foldSizes. cbn [foldl]. lia.
  - apply Forall_cons in Hpos as [Hs Hpos]. cbn [foldr] in Hsum |- *.
    assert (Hrest : 0 <= foldr Z.add 0 sizes).
    { clear -Hpos. induction Hpos; cbn [foldr]; lia. }
    unfold foldSizes. cbn [foldl]. fold (foldSizes NS_INTRINSICSIZE isRow sizes).
    assert (Hstep : GET_WIDTH (AddWidth NS_INTRINSICSIZE sz s isRow) isRow
                    = GET_WIDTH sz isRow + s).
    { rewrite AddWidth_finite by lia. rewrite GET_SET_WIDTH.
      apply add32_int32. unfold int32, PR_INT32_MIN, PR_INT32_MAX in *. lia. }
    change (foldl (fun acc s0 => AddWidth NS_INTRINSICSIZE acc s0 isRow)
              (AddWidth NS_INTRINSICSIZE sz s isRow) sizes)
      with (foldSizes NS_INTRINSICSIZE isRow sizes
              (AddWidth NS_INTRINSICSIZE sz s isRow)).
    rewrite IH; rewrite ?Hstep; try assumption; lia.
Qed.

(** One shape for the three queries: the query of the base class, then
    the loop when there is a grid. *)
Definition sizeQuery (super : nsGridRowLayout)
    (baseQuery : Box -> nsSize -> nsresult * nsSize)
    (rowHeight : nsGrid -> Z -> bool -> nscoord)
    (aBox : Box) (aSize : nsSize) : nsresult * nsSize :=
  match GetGrid super aBox with
  | Some (grid, index) =>
      let isRow := IsHorizontal super aBox in
      ((baseQuery aBox aSize).1,
       addExtraColumns NS_INTRINSICSIZE (rowHeight grid) isRow
         (GetExtraColumnCount grid isRow)
         (sub32 (GetColumnCount grid isRow) (GetExtraColumnCount grid isRow))
         (baseQuery aBox aSize).2)
  | None => baseQuery aBox aSize
  end.

Lemma GetPrefSize_sizeQuery super aBox aSize :
  GetPrefSize NS_INTRINSICSIZE super aBox aSize
  = sizeQuery super (nsGridRowLayout_GetPrefSize super) GetPrefRowHeight aBox aSize.
Proof.
  unfold GetPrefSize, sizeQuery.
  destruct (nsGridRowLayout_GetPrefSize super aBox aSize) as [rv sz].
  destruct (GetGrid super aBox) as [[grid index]|]; reflexivity.
Qed.

Lemma GetMaxSize_sizeQuery super aBox aSize :
  GetMaxSize NS_INTRINSICSIZE super aBox aSize
  = sizeQuery super (nsGridRowLayout_GetMaxSize super) GetMaxRowHeight aBox aSize.
Proof.
  unfold GetMaxSize, sizeQuery.
  destruct (nsGridRowLayout_GetMaxSize super aBox aSize) as [rv sz].
  destruct (GetGrid super aBox) as [[grid index]|]; reflexivity.
Qed.

Lemma GetMinSize_sizeQuery super aBox aSize :
  GetMinSize NS_INTRINSICSIZE super aBox aSize
  = sizeQuery super (nsGridRowLayout_GetMinSize super) GetMinRowHeight aBox aSize.
Proof.
  unfold GetMinSize, sizeQuery.
  destruct (nsGridRowLayout_GetMinSize super aBox aSize) as [rv sz].
  destruct (GetGrid super aBox) as [[grid index]|]; reflexivity.
Qed.

Lemma sizeQuery_status_other_axis super baseQuery rowHeight aBox aSize :
  (sizeQuery super baseQuery rowHeight aBox aSize).1 = (baseQuery aBox aSize).1
  /\ GET_HEIGHT (sizeQuery super baseQuery rowHeight aBox aSize).2
       (IsHorizontal super aBox)
     = GET_HEIGHT (baseQuery aBox aSize).2 (IsHorizontal super aBox).
Proof.
  unfold sizeQuery. destruct (GetGrid super aBox) as [[grid index]|]; cbn [fst snd].
  - split; [reflexivity | apply addExtraColumns_other_axis].
  - split; reflexivity.
Qed.

Lemma sizeQuery_intrinsic super baseQuery rowHeight aBox aSize :
  GET_WIDTH (baseQuery aBox aSize).2 (IsHorizontal super aBox) = NS_INTRINSICSIZE ->
  GET_WIDTH (sizeQuery super baseQuery rowHeight aBox aSize).2
    (IsHorizontal super aBox) = NS_INTRINSICSIZE.
Proof.
  intros H. unfold sizeQuery.
  destruct (GetGrid super aBox) as [[grid index]|]; cbn [snd]; [|exact H].
  apply addExtraColumns_intrinsic, H.
Qed.

Lemma sizeQuery_none super baseQuery rowHeight aBox aSize grid index :
  GetGrid super aBox = Some (grid, index) ->
  GetExtraColumnCount grid (IsHorizontal super aBox) <= 0 ->
  sizeQuery super baseQuery rowHeight aBox aSize = baseQuery aBox aSize.
Proof.
  intros Hg H. unfold sizeQuery. rewrite Hg.
  rewrite addExtraColumns_none by exact H.
  destruct (baseQuery aBox aSize); reflexivity.
Qed.

Lemma sizeQuery_foldSizes super baseQuery rowHeight aBox aSize grid index :
  GetGrid super aBox = Some (grid, index) ->
  let isRow := IsHorizontal super aBox in
  0 <= GetExtraColumnCount grid isRow <= GetColumnCount grid isRow ->
  GetColumnCount grid isRow <= PR_INT32_MAX ->
  (sizeQuery super baseQuery rowHeight aBox aSize).2
  = foldSizes NS_INTRINSICSIZE isRow (extraColumnSizes (rowHeight grid) grid isRow)
      (baseQuery aBox aSize).2.
Proof.
  intros Hg isRow Hc Hmax. unfold sizeQuery. rewrite Hg. cbn [snd].
  apply addExtraColumns_foldSizes; assumption.
Qed.

End QueryFacts.

(** X1.  Each size query returns the status of the base class and, on
    the axis across the box, the size the base class left: the extra
    columns of the grid, whatever their number and sizes, only reach
    the component on the axis of the box. *)
Theorem GetSize_status_and_other_axis :
  forall (NS_INTRINSICSIZE : nscoord) (super : nsGridRowLayout)
         (aBox : Box) (aSize : nsSize),
    let isRow := IsHorizontal super aBox in
    ((GetPrefSize NS_INTRINSICSIZE super aBox aSize).1
       = (nsGridRowLayout_GetPrefSize super aBox aSize).1
     /\ GET_HEIGHT (GetPrefSize NS_INTRINSICSIZE super aBox aSize).2 isRow
       = GET_HEIGHT (nsGridRowLayout_GetPrefSize super aBox aSize).2 isRow)
    /\ ((GetMaxSize NS_INTRINSICSIZE super aBox aSize).1
          = (nsGridRowLayout_GetMaxSize super aBox aSize).1
        /\ GET_HEIGHT (GetMaxSize NS_INTRINSICSIZE super aBox aSize).2 isRow
          = GET_HEIGHT (nsGridRowLayout_GetMaxSize super aBox aSize).2 isRow)
    /\ ((GetMinSize NS_INTRINSICSIZE super aBox aSize).1
          = (nsGridRowLayout_GetMinSize super aBox aSize).1
        /\ GET_HEIGHT (GetMinSize NS_INTRINSICSIZE super aBox aSize).2 isRow
          = GET_HEIGHT (nsGridRowLayout_GetMinSize super aBox aSize).2 isRow).
Proof.
  intros S super aBox aSize isRow.
  rewrite GetPrefSize_sizeQuery, GetMaxSize_sizeQuery, GetMinSize_sizeQuery.
  repeat apply conj; apply sizeQuery_status_other_axis.
Qed.

(** X2.  With a grid that reports no extra column, or a negative number
    of them, the loop does not run and each size query returns what the
    base class returns. *)
Theorem GetSize_without_extra_columns :
  forall (NS_INTRINSICSIZE : nscoord) (super : nsGridRowLayout)
         (aBox : Box) (aSize : nsSize) (grid : nsGrid) (index : Z),
    GetGrid super aBox = Some (grid, index) ->
    GetExtraColumnCount grid (IsHorizontal super aBox) <= 0 ->
    GetPrefSize NS_INTRINSICSIZE super aBox aSize
      = nsGridRowLayout_GetPrefSize super aBox aSize
    /\ GetMaxSize NS_INTRINSICSIZE super aBox aSize
      = nsGridRowLayout_GetMaxSize super aBox aSize
    /\ GetMinSize NS_INTRINSICSIZE super aBox aSize
      = nsGridRowLayout_GetMinSize super aBox aSize.
Proof.
  intros S super aBox aSize grid index Hg H.
  rewrite GetPrefSize_sizeQuery, GetMaxSize_sizeQuery, GetMinSize_sizeQuery.
  repeat apply conj; apply (sizeQuery_none S super _ _ aBox aSize grid index Hg H).
Qed.

Lemma GetSize_without_extra_columns_witness :
  GetPrefSize Sample.NS_INTRINSICSIZE (MoreSamples.inside (MoreSamples.plainGrid (-2)))
    Sample.three (mkSize 30 40) = (NS_OK, mkSize 30 40)
  /\ GetMaxSize Sample.NS_INTRINSICSIZE (MoreSamples.inside (MoreSamples.plainGrid (-2)))
    Sample.three (mkSize 30 40) = (NS_ERROR 7, mkSize 30 40)
  /\ GetMinSize Sample.NS_INTRINSICSIZE (MoreSamples.inside (MoreSamples.plainGrid (-2)))
    Sample.three (mkSize 30 40) = (NS_OK, mkSize 30 40).
Proof.
  refine (GetSize_without_extra_columns Sample.NS_INTRINSICSIZE
            (MoreSamples.inside (MoreSamples.plainGrid (-2))) Sample.three
            (mkSize 30 40) (MoreSamples.plainGrid (-2)) 0 eq_refl _).
  simpl. lia.
Defined.

(** X3.  A size of the base class that is intrinsic on the axis of the
    box comes back intrinsic from the query, with or without a grid and
    whatever the sizes of the extra columns are. *)
Theorem GetSize_base_intrinsic :
  forall (NS_INTRINSICSIZE : nscoord) (super : nsGridRowLayout)
         (aBox : Box) (aSize : nsSize),
    let isRow := IsHorizontal super aBox in
    (GET_WIDTH (nsGridRowLayout_GetPrefSize super aBox aSize).2 isRow
       = NS_INTRINSICSIZE ->
     GET_WIDTH (GetPrefSize NS_INTRINSICSIZE super aBox aSize).2 isRow
       = NS_INTRINSICSIZE)
    /\ (GET_WIDTH (nsGridRowLayout_GetMaxSize super aBox aSize).2 isRow
          = NS_INTRINSICSIZE ->
        GET_WIDTH (GetMaxSize NS_INTRINSICSIZE super aBox aSize).2 isRow
          = NS_INTRINSICSIZE)
    /\ (GET_WIDTH (nsGridRowLayout_GetMinSize super aBox aSize).2 isRow
          = NS_INTRINSICSIZE ->
        GET_WIDTH (GetMinSize NS_INTRINSICSIZE super aBox aSize).2 isRow
          = NS_INTRINSICSIZE).
Proof.
  intros S super aBox aSize isRow.
  rewrite GetPrefSize_sizeQuery, GetMaxSize_sizeQuery, GetMinSize_sizeQuery.
  repeat apply conj; apply sizeQuery_intrinsic.
Qed.

(** X4.  In a grid whose counts satisfy the invariant of the grid, one
    extra column whose size of a kind is intrinsic on the other axis
    makes the size query of that kind intrinsic on the axis of the box,
    whatever the base class and the other extra columns report. *)
Theorem GetSize_extra_column_intrinsic :
  forall (NS_INTRINSICSIZE : nscoord) (super : nsGridRowLayout)
         (aBox : Box) (aSize : nsSize) (grid : nsGrid) (index i : Z),
    GetGrid super aBox = Some (grid, index) ->
    let isRow := IsHorizontal super aBox in
    let columns := GetColumnCount grid isRow in
    let extra := GetExtraColumnCount grid isRow in
    0 <= extra <= columns -> columns <= PR_INT32_MAX ->
    columns - extra <= i < columns ->
    (GetPrefRowHeight grid i (negb isRow) = NS_INTRINSICSIZE ->
     GET_WIDTH (GetPrefSize NS_INTRINSICSIZE super aBox aSize).2 isRow
       = NS_INTRINSICSIZE)
    /\ (GetMaxRowHeight grid i (negb isRow) = NS_INTRINSICSIZE ->
        GET_WIDTH (GetMaxSize NS_INTRINSICSIZE super aBox aSize).2 isRow
          = NS_INTRINSICSIZE)
    /\ (GetMinRowHeight grid i (negb isRow) = NS_INTRINSICSIZE ->
        GET_WIDTH (GetMinSize NS_INTRINSICSIZE super aBox aSize).2 isRow
          = NS_INTRINSICSIZE).
Proof.
  intros S super aBox aSize grid index i Hg isRow columns extra Hc Hmax Hi.
  assert (Hin : forall rowHeight : Z -> bool -> nscoord,
             rowHeight i (negb isRow) = S ->
             In S (extraColumnSizes rowHeight grid isRow)).
  { intros rowHeight H. unfold extraColumnSizes. fold isRow columns extra.
    apply in_map_iff. exists i. split; [exact H|].
    apply list_elem_of_In, elem_of_seqZ. lia. }
  rewrite GetPrefSize_sizeQuery, GetMaxSize_sizeQuery, GetMinSize_sizeQuery.
  repeat apply conj; intros H;
    rewrite (sizeQuery_foldSizes S super _ _ aBox aSize grid index Hg Hc Hmax);
    apply foldSizes_dominated, Hin, H.
Qed.

Lemma GetSize_extra_column_intrinsic_witness :
  GetMaxSize Sample.NS_INTRINSICSIZE (MoreSamples.inside MoreSamples.stretchy)
    Sample.three (mkSize 30 40)
  = (NS_ERROR 7, mkSize 30 Sample.NS_INTRINSICSIZE).
Proof.
  pose proof (GetSize_extra_column_intrinsic Sample.NS_INTRINSICSIZE
                (MoreSamples.inside MoreSamples.stretchy) Sample.three
                (mkSize 30 40) MoreSamples.stretchy 0 4 eq_refl) as H.
  cbv zeta in H.
  destruct H as (_ & Hx & _);
    [simpl; lia | simpl; unfold PR_INT32_MAX; lia | simpl; lia |].
  specialize (Hx eq_refl).
  destruct (GetMaxSize Sample.NS_INTRINSICSIZE
              (MoreSamples.inside MoreSamples.stretchy) Sample.three (mkSize 30 40))
    as [rv [w h]] eqn:E.
  vm_compute in E. injection E as <- <- <-. reflexivity.
Defined.

(** X5.  In a grid whose counts satisfy the invariant of the grid, when
    the size of the base class on the axis of the box and the preferred
    sizes of the extra columns are not negative and their sum stays
    below the intrinsic size, [GetPrefSize] returns exactly that sum on
    the axis: nothing wraps and nothing is taken for the intrinsic
    size. *)
Theorem GetPrefSize_adds_extra_columns :
  forall (NS_INTRINSICSIZE : nscoord) (super : nsGridRowLayout)
         (aBox : Box) (aSize : nsSize) (grid : nsGrid) (index : Z),
    GetGrid super aBox = Some (grid, index) ->
    let isRow := IsHorizontal super aBox in
    let columns := GetColumnCount grid isRow in
    let extra := GetExtraColumnCount grid isRow in
    let base := GET_WIDTH (nsGridRowLayout_GetPrefSize super aBox aSize).2 isRow in
    let sizes := map (fun i => GetPrefRowHeight grid i (negb isRow))
                     (seqZ (columns - extra) extra) in
    0 <= extra <= columns -> columns <= PR_INT32_MAX ->
    NS_INTRINSICSIZE <= PR_INT32_MAX ->
    0 <= base ->
    Forall (fun s => 0 <= s) sizes ->
    base + foldr Z.add 0 sizes < NS_INTRINSICSIZE ->
    GET_WIDTH (GetPrefSize NS_INTRINSICSIZE super aBox aSize).2 isRow
    = base + foldr Z.add 0 sizes.
Proof.
  intros S super aBox aSize grid index Hg isRow columns extra base sizes
         Hc Hmax HS Hb Hpos Hsum.
  rewrite GetPrefSize_sizeQuery.
  rewrite (sizeQuery_foldSizes S super _ _ aBox aSize grid index Hg Hc Hmax).
  apply foldSizes_sum; assumption.
Qed.

Lemma GetPrefSize_adds_extra_columns_witness :
  GET_WIDTH (GetPrefSize Sample.NS_INTRINSICSIZE Sample.inGrid Sample.three
               (mkSize 30 40)).2 true = 30 + (10 + (15 + 0)).
Proof.
  refine (GetPrefSize_adds_extra_columns Sample.NS_INTRINSICSIZE Sample.inGrid
            Sample.three (mkSize 30 40) Sample.grid 1 eq_refl _ _ _ _ _ _).
  - simpl. lia.
  - simpl. unfold PR_INT32_MAX. lia.
  - unfold Sample.NS_INTRINSICSIZE, PR_INT32_MAX. lia.
  - simpl. lia.
  - change (Forall (fun s => 0 <= s) [10; 15]). repeat constructor; lia.
  - vm_compute. reflexivity.
Defined.

(** ** The traversals on any tree and any buffer *)

Section MoreTraversalFacts.

Variable vtable : nat -> nsIGridPart.

(** *** The buffer keeps its length *)






(** *** A buffer that is too short *)

Lemma store_overrun mem i row :
  Z.of_nat (length mem) <= i -> store mem i row = Crash BufferOverrun.
Proof.
  intros H. unfold store.
  assert ((i <? Z.of_nat (length mem)) = false) as -> by (apply Z.ltb_ge; lia).
  rewrite andb_false_r. reflexivity.
Qed.

Lemma storeRows_overrun rows : forall mem i,
  0 <= i <= Z.of_nat (length mem) ->
  Z.of_nat (length mem) < i + Z.of_nat (length rows) ->
  storeRows mem i rows = Crash BufferOverrun.
Proof.
  induction rows as [|row rows IH]; intros mem i Hi Hlen; cbn [storeRows].
  - cbn [length] in Hlen. lia.
  - cbn [length] in Hlen.
    destruct (decide (i < Z.of_nat (length mem))) as [Hin|Hout].
    + rewrite store_splice by lia. cbn [mbind Result_bind].
      apply IH; rewrite splice_length by (cbn [length]; lia); lia.
    + rewrite store_overrun by lia. reflexivity.
Qed.

Definition BuildRows_overruns (box : Box) : Prop :=
  forall aRows mem,
    scrollsResolved box = true ->
    0 <= aRows <= Z.of_nat (length mem) ->
    Z.of_nat (length (logicalRows vtable box)) <= PR_INT32_MAX ->
    Z.of_nat (length mem) < aRows + Z.of_nat (length (logicalRows vtable box)) ->
    BuildRows_in vtable box aRows mem = Crash BufferOverrun.

Lemma BuildRows_children_overrun aRows kids :
  (forall child eff, child ∈ kids -> CheckForScrollFrame child = Some eff ->
     BuildRows_overruns eff) ->
  forall mem rowCount,
    let rows := flat_map (childRows vtable (logicalRows vtable)) kids in
    forallb (childResolved scrollsResolved) kids = true ->
    0 <= aRows -> 0 <= rowCount ->
    aRows + rowCount <= Z.of_nat (length mem) ->
    rowCount + Z.of_nat (length rows) <= PR_INT32_MAX ->
    Z.of_nat (length mem) < aRows + rowCount + Z.of_nat (length rows) ->
    BuildRows_children (monument_BuildRows vtable) aRows kids mem rowCount
    = Crash BufferOverrun.
Proof.
  induction kids as [|ch next IH];
    intros Hrec mem rowCount rows Hres Ha Hr Hptr Hmax Hlen; subst rows.
  - cbn [flat_map length] in Hlen. lia.
  - rewrite BuildRows_children_cons.
    cbn [forallb flat_map] in Hres, Hmax, Hlen.
    set (rest := flat_map (childRows vtable (logicalRows vtable)) next) in *.
    unfold childResolved at 1 in Hres. unfold childRows in Hmax, Hlen.
    rewrite unwrapThen_CheckForScrollFrame in Hres.
    rewrite unwrapThen_CheckForScrollFrame in Hmax.
    rewrite unwrapThen_CheckForScrollFrame in Hlen.
    assert (Hnext : forall child eff, child ∈ next ->
              CheckForScrollFrame child = Some eff -> BuildRows_overruns eff)
      by (intros child eff Hin; apply Hrec; right; exact Hin).
    destruct (CheckForScrollFrame ch) as [d|] eqn:E; [|discriminate Hres].
    apply andb_true_iff in Hres as [Hd Hres].
    rewrite length_app in Hlen, Hmax.
    assert (Hadd : forall k : Z, 0 <= k -> rowCount + k <= PR_INT32_MAX ->
                     add32 rowCount k = rowCount + k).
    { intros k Hk Hk'. apply add32_int32.
      unfold int32, PR_INT32_MIN, PR_INT32_MAX in *. lia. }
    destruct (monumentOf d) as [[|impl]|] eqn:M; cbn [monument_BuildRows].
    + destruct (decide (aRows + rowCount + Z.of_nat (length (logicalRows vtable d))
                        <= Z.of_nat (length mem))) as [Hfit|Hout].
      * rewrite (BuildRows_in_spec vtable d) by (try assumption; lia).
        cbn [mbind Result_bind fst snd]. rewrite Hadd by lia.
        apply (IH Hnext); rewrite ?splice_length by lia; try assumption; lia.
      * rewrite (Hrec ch d (list_elem_of_here _ _) E) by (try assumption; lia).
        reflexivity.
    + unfold part_BuildRows.
      destruct (decide (aRows + rowCount
                        + Z.of_nat (length (part_rows (vtable impl) d))
                        <= Z.of_nat (length mem))) as [Hfit|Hout].
      * rewrite storeRows_splice by lia. cbn [mbind Result_bind fst snd].
        rewrite wrap32_int32 by (unfold int32, PR_INT32_MIN, PR_INT32_MAX in *; lia).
        rewrite Hadd by lia.
        apply (IH Hnext); rewrite ?splice_length by lia; try assumption; lia.
      * rewrite storeRows_overrun by lia. reflexivity.
    + cbn [length] in Hlen, Hmax.
      destruct (decide (aRows + rowCount < Z.of_nat (length mem))) as [Hfit|Hout].
      * rewrite store_splice by lia. cbn [mbind Result_bind].
        rewrite (Hadd 1) by lia.
        apply (IH Hnext); rewrite ?splice_length by (cbn [length]; lia);
          try assumption; cbn [length]; lia.
      * rewrite store_overrun by lia. reflexivity.
Qed.

Lemma BuildRows_in_overrun box : BuildRows_overruns box.
Proof.
  induction box as [box IH] using Box_effective_ind.
  intros aRows mem Hres Ha Hmax Hlen.
  rewrite BuildRows_in_eq.
  rewrite scrollsResolved_eq in Hres. rewrite logicalRows_eq in Hmax, Hlen.
  apply (BuildRows_children_overrun aRows _ IH mem 0); try assumption; lia.
Qed.

(** *** A child that does not resolve *)

Definition BuildRows_stops (box : Box) : Prop :=
  scrollsResolved box = false ->
  forall aRows mem, exists f, BuildRows_in vtable box aRows mem = Crash f.

Lemma BuildRows_children_stop aRows kids :
  (forall child eff, child ∈ kids -> CheckForScrollFrame child = Some eff ->
     BuildRows_stops eff) ->
  forallb (childResolved scrollsResolved) kids = false ->
  forall mem rowCount,
    exists f, BuildRows_children (monument_BuildRows vtable) aRows kids mem rowCount
              = Crash f.
Proof.
  induction kids as [|ch next IH]; intros Hrec Hres mem rowCount.
  - discriminate Hres.
  - rewrite BuildRows_children_cons. cbn [forallb] in Hres.
    unfold childResolved at 1 in Hres.
    rewrite unwrapThen_CheckForScrollFrame in Hres.
    assert (Hnext : forall child eff, child ∈ next ->
              CheckForScrollFrame child = Some eff -> BuildRows_stops eff)
      by (intros child eff Hin; apply Hrec; right; exact Hin).
    destruct (CheckForScrollFrame ch) as [d|] eqn:E; [|eauto].
    destruct (monumentOf d) as [[|impl]|] eqn:M; cbn [monument_BuildRows].
    + destruct (scrollsResolved d) eqn:Hd.
      * destruct (BuildRows_in vtable d (aRows + rowCount) mem) as [[m1 c1]|f];
          cbn [mbind Result_bind]; [|eauto].
        apply (IH Hnext Hres).
      * destruct (Hrec ch d (list_elem_of_here _ _) E Hd (aRows + rowCount) mem)
          as [f ->]. cbn [mbind Result_bind]. eauto.
    + destruct (part_BuildRows (vtable impl) d (aRows + rowCount) mem)
        as [[m1 c1]|f]; cbn [mbind Result_bind]; [|eauto].
      apply (IH Hnext Hres).
    + destruct (store mem (aRows + rowCount) (Init ch true)) as [m1|f];
        cbn [mbind Result_bind]; [|eauto].
      apply (IH Hnext Hres).
Qed.

Lemma BuildRows_in_stop box : BuildRows_stops box.
Proof.
  induction box as [box IH] using Box_effective_ind.
  intros Hres aRows mem. rewrite BuildRows_in_eq.
  rewrite scrollsResolved_eq in Hres.
  apply (BuildRows_children_stop aRows _ IH Hres).
Qed.

(** *** Row groups only *)

Definition generated (row : nsGridRow) : Prop :=
  mIsBogus row = true /\ mBox row <> None.

Lemma logicalRows_generated box :
  onlyRowGroups box = true -> Forall generated (logicalRows vtable box).
Proof.
  induction box as [box IH] using Box_effective_ind. intros Honly.
  rewrite logicalRows_eq. rewrite onlyRowGroups_eq in Honly.
  induction (GetChildBoxes box) as [|ch next IHk]; cbn [flat_map]; [constructor|].
  cbn [forallb] in Honly. apply andb_true_iff in Honly as [Hch Hnext].
  apply Forall_app. split.
  - unfold childRows. unfold childOnlyRowGroups in Hch.
    rewrite unwrapThen_CheckForScrollFrame in Hch.
    rewrite unwrapThen_CheckForScrollFrame.
    destruct (CheckForScrollFrame ch) as [d|] eqn:E; [|constructor].
    destruct (monumentOf d) as [[|impl]|]; try discriminate Hch.
    + apply (IH ch d (list_elem_of_here _ _) E Hch).
    + repeat constructor. discriminate.
  - apply IHk; [|exact Hnext]. intros child eff Hin. apply IH. right. exact Hin.
Qed.

Lemma splice_lookup mem i rows k :
  (i <= length mem)%nat -> (k < length rows)%nat ->
  splice mem i rows !! (i + k)%nat = rows !! k.
Proof.
  intros Hi Hk. unfold splice.
  rewrite lookup_app_r by (rewrite length_take; lia).
  rewrite length_take, Nat.min_l by lia.
  replace (i + k - i)%nat with k by lia.
  apply lookup_app_l, Hk.
Qed.

(** *** Children in another order *)

Lemma logicalRows_permutation kids kids' :
  kids ≡ₚ kids' ->
  length (flat_map (childRows vtable (logicalRows vtable)) kids)
  = length (flat_map (childRows vtable (logicalRows vtable)) kids').
Proof.
  induction 1 as [|x l l' _ IH|x y l|l l' l'' _ IH1 _ IH2]; cbn [flat_map].
  - reflexivity.
  - rewrite !length_app, IH. reflexivity.
  - rewrite !length_app. lia.
  - rewrite IH1. exact IH2.
Qed.

End MoreTraversalFacts.



(** X7.  [BuildRows] does not check the bounds of the buffer: when the
    children resolve and the pointer is in the buffer but the logical
    rows of the box do not fit behind it, a row is written outside the
    buffer, and no shortened result is returned. *)
Theorem BuildRows_short_buffer_overruns :
  forall (vtable : nat -> nsIGridPart) (box : Box) (aRows : Z)
         (mem : list nsGridRow),
    scrollsResolved box = true ->
    0 <= aRows <= Z.of_nat (length mem) ->
    Z.of_nat (length (logicalRows vtable box)) <= PR_INT32_MAX ->
    Z.of_nat (length mem) < aRows + Z.of_nat (length (logicalRows vtable box)) ->
    BuildRows vtable (Some box) aRows mem = Crash BufferOverrun.
Proof.
  intros vtable box aRows mem Hres Ha Hmax Hlen. unfold BuildRows.
  rewrite (BuildRows_in_overrun vtable box aRows mem Hres Ha Hmax Hlen).
  reflexivity.
Qed.

Lemma BuildRows_short_buffer_overruns_witness :
  BuildRows Sample.vtable (Some Sample.mixed) 3 (blankRows 6) = Crash BufferOverrun.
Proof.
  refine (BuildRows_short_buffer_overruns Sample.vtable Sample.mixed 3
            (blankRows 6) eq_refl _ _ _).
  - simpl. lia.
  - simpl. unfold PR_INT32_MAX. lia.
  - simpl. lia.
Defined.

(** X8.  A child that is a scrollable frame without a scrolled box,
    directly under the box or under a row group nested in it, stops
    each of the three traversals, wherever among the children it is:
    counting and dirty propagation end in the call through [nsnull],
    and [BuildRows] returns no result either. *)
Theorem unresolved_child_stops_traversals :
  forall (vtable : nat -> nsIGridPart) (box : Box)
         (aRowCount aComputedColumnCount aRows : Z)
         (dirty : gset nat) (mem : list nsGridRow),
    int32 aRowCount ->
    scrollsResolved box = false ->
    CountRowsColumns vtable (Some box) aRowCount aComputedColumnCount
      = Crash NullDeref
    /\ DirtyRows vtable (Some box) dirty = Crash NullDeref
    /\ exists f, BuildRows vtable (Some box) aRows mem = Crash f.
Proof.
  intros vtable box r c aRows dirty mem Hr Hres.
  destruct (unresolved_child_crashes vtable box r c dirty Hr Hres) as [Hc Hd].
  split; [exact Hc|]. split; [exact Hd|].
  destruct (BuildRows_in_stop vtable box Hres aRows mem) as [f Hf].
  exists f. unfold BuildRows. rewrite Hf. reflexivity.
Qed.

Lemma unresolved_child_stops_traversals_witness :
  CountRowsColumns Sample.vtable
      (Some (Sample.rows 50 [Sample.plain 51; Sample.broken])) 0 0
    = Crash NullDeref
  /\ DirtyRows Sample.vtable
      (Some (Sample.rows 50 [Sample.plain 51; Sample.broken])) ∅
    = Crash NullDeref
  /\ exists f, BuildRows Sample.vtable
      (Some (Sample.rows 50 [Sample.plain 51; Sample.broken])) 0 (blankRows 4)
    = Crash f.
Proof.
  refine (unresolved_child_stops_traversals Sample.vtable
            (Sample.rows 50 [Sample.plain 51; Sample.broken]) 0 0 0 ∅
            (blankRows 4) _ eq_refl).
  unfold int32, PR_INT32_MIN, PR_INT32_MAX. lia.
Defined.

(** X9.  In a tree whose monuments are all row groups, every row that
    [BuildRows] writes is a generated row that refers to a box: the
    class of this file never writes a row that is not marked bogus. *)
Theorem row_groups_build_generated_rows :
  forall (vtable : nat -> nsIGridPart) (box : Box) (aRows : Z)
         (mem : list nsGridRow),
    scrollsResolved box = true ->
    onlyRowGroups box = true ->
    0 <= aRows ->
    Z.of_nat (length (logicalRows vtable box)) <= PR_INT32_MAX ->
    aRows + Z.of_nat (length (logicalRows vtable box)) <= Z.of_nat (length mem) ->
    exists mem' n,
      BuildRows vtable (Some box) aRows mem = Ok (NS_OK, (mem', n))
      /\ forall k, 0 <= k < n ->
           exists a, mem' !! Z.to_nat (aRows + k)
                     = Some {| mBox := Some a; mIsBogus := true |}.
Proof.
  intros vtable box aRows mem Hres Honly Ha Hmax Hlen.
  exists (splice mem (Z.to_nat aRows) (logicalRows vtable box)),
         (Z.of_nat (length (logicalRows vtable box))).
  split.
  - unfold BuildRows.
    rewrite (BuildRows_in_spec vtable box aRows mem Hres Ha Hmax Hlen).
    reflexivity.
  - intros k Hk.
    replace (Z.to_nat (aRows + k)) with (Z.to_nat aRows + Z.to_nat k)%nat by lia.
    rewrite splice_lookup by lia.
    destruct (lookup_lt_is_Some_2 (logicalRows vtable box) (Z.to_nat k))
      as [row Hrow]; [lia|].
    pose proof (logicalRows_generated vtable box Honly) as Hgen.
    rewrite Forall_forall in Hgen.
    destruct (Hgen row (list_elem_of_lookup_2 _ _ _ Hrow)) as [Hb Hbox].
    destruct row as [[a|] b]; cbn [mIsBogus mBox] in Hb, Hbox; [|congruence].
    subst b. exists a. exact Hrow.
Qed.

Lemma row_groups_build_generated_rows_witness :
  exists mem' n,
    BuildRows Sample.vtable (Some Sample.nested) 1 (blankRows 5)
      = Ok (NS_OK, (mem', n))
    /\ forall k, 0 <= k < n ->
         exists a, mem' !! Z.to_nat (1 + k)
                   = Some {| mBox := Some a; mIsBogus := true |}.
Proof.
  refine (row_groups_build_generated_rows Sample.vtable Sample.nested 1
            (blankRows 5) eq_refl eq_refl _ _ _).
  - lia.
  - simpl. unfold PR_INT32_MAX. lia.
  - simpl. lia.
Defined.

(** X10.  When [DirtyRows] returns it returns [NS_OK]; every box that
    was dirty still is, the box itself is dirty, and the same request
    once more changes nothing. *)
Theorem DirtyRows_only_adds_and_repeats :
  forall (vtable : nat -> nsIGridPart) (box : Box) (dirty dirty' : gset nat)
         (rv : nsresult),
    DirtyRows vtable (Some box) dirty = Ok (rv, dirty') ->
    rv = NS_OK
    /\ dirty ⊆ dirty'
    /\ mAddr box ∈ dirty'
    /\ DirtyRows vtable (Some box) dirty' = Ok (NS_OK, dirty').
Proof.
  intros vtable box dirty dirty' rv. unfold DirtyRows.
  rewrite !DirtyRows_in_spec.
  destruct (scrollsResolved box); cbn [mbind Result_bind]; [|discriminate 1].
  intros [= <- <-]. rewrite dirtySet_eq.
  split; [reflexivity|]. split; [set_solver|]. split; [set_solver|].
  do 2 f_equal. set_solver.
Qed.

Lemma DirtyRows_only_adds_and_repeats_witness :
  DirtyRows Sample.vtable (Some Sample.mixed) {[ 99%nat ]}
    = Ok (NS_OK, {[ 10; 12; 14; 17; 99 ]}%nat)
  /\ DirtyRows Sample.vtable (Some Sample.mixed) {[ 10; 12; 14; 17; 99 ]}%nat
    = Ok (NS_OK, {[ 10; 12; 14; 17; 99 ]}%nat).
Proof.
  assert (E : DirtyRows Sample.vtable (Some Sample.mixed) {[ 99%nat ]}
              = Ok (NS_OK, {[ 10; 12; 14; 17; 99 ]}%nat))
    by (vm_compute; reflexivity).
  split; [exact E|].
  exact (proj2 (proj2 (proj2 (DirtyRows_only_adds_and_repeats Sample.vtable
                                 Sample.mixed _ _ _ E)))).
Defined.

(** X11.  The row count that [CountRowsColumns] leaves does not depend
    on the order of the children: with the children in any other order
    the call returns as well and leaves the same row count (the
    computed column count may differ, since the other grid parts see it
    in another order). *)
Theorem CountRowsColumns_children_order :
  forall (vtable : nat -> nsIGridPart) (box : Box) (kids : list Box)
         (aRowCount aComputedColumnCount n columns : Z),
    int32 aRowCount ->
    kids ≡ₚ GetChildBoxes box ->
    CountRowsColumns vtable (Some box) aRowCount aComputedColumnCount
      = Ok (NS_OK, (n, columns)) ->
    exists columns',
      CountRowsColumns vtable (Some (withChildren box kids))
        aRowCount aComputedColumnCount
      = Ok (NS_OK, (n, columns')).
Proof.
  intros vtable box kids r c n columns Hr Hperm. unfold CountRowsColumns.
  rewrite !(CountRowsColumns_in_spec vtable _ r c Hr).
  rewrite (scrollsResolved_eq (withChildren box kids)), (scrollsResolved_eq box).
  rewrite (logicalRows_eq vtable (withChildren box kids)), (logicalRows_eq vtable box).
  destruct box as [a sc l ks]. cbn [withChildren GetChildBoxes] in *.
  rewrite (childResolved_permutation _ _ Hperm).
  rewrite (logicalRows_permutation vtable _ _ Hperm).
  destruct (forallb _ ks); cbn [mbind Result_bind]; [|discriminate 1].
  intros [= <- _]. eexists. reflexivity.
Qed.

Lemma CountRowsColumns_children_order_witness :
  exists columns',
    CountRowsColumns Sample.vtable
      (Some (withChildren Sample.mixed (rev (GetChildBoxes Sample.mixed)))) 0 0
    = Ok (NS_OK, (4, columns')).
Proof.
  refine (CountRowsColumns_children_order Sample.vtable Sample.mixed
            (rev (GetChildBoxes Sample.mixed)) 0 0 4 2 _ _ eq_refl).
  - unfold int32, PR_INT32_MIN, PR_INT32_MAX. lia.
  - apply Permutation_sym, Permutation_rev.
Defined.
